(** * steamapi: the application and achievement entities of [steamapi/app.py]

    A shallow embedding of [SteamApp] and [SteamAchievement].  The objects
    the module receives from the web API are dynamically typed JSON trees,
    so they are modelled by one type of Python values; the two classes are
    records; a property read is a computation in a state-and-exception
    monad whose state is the object itself ([self], with its [_cache]) and a
    log of what the read did to the outside world (API calls, clock reads,
    constructed achievements). *)

From Stdlib Require Import ZArith List Lia.
From Stdlib Require Import Floats.PrimFloat Floats.FloatOps Floats.SpecFloat Uint63.
From stdpp Require Import base option list gmap strings pretty.

Local Open Scope string_scope.
Local Open Scope Z_scope.
Local Set Warnings "-register-all".

(** ** Python values *)

(** What an API response is made of.  [VResp] is an [APIResponse]: the
    JSON object wrapped for dotted field access; a JSON array is a Python
    list. *)
Inductive value :=
| VNone
| VBool (b : bool)
| VInt (z : Z)
| VFloat (f : float)
| VStr (s : string)
| VList (l : list value)
| VResp (m : gmap string value).

Inductive exn :=
| AttributeError (attr : string)
| KeyError (key : string)
| TypeError
| ValueError (msg : string)
| APIError (msg : string).

Inductive result (A : Type) :=
| Ok (a : A)
| Raise (e : exn).
Arguments Ok {A} a.
Arguments Raise {A} e.

#[global] Instance result_ret : MRet result := @Ok.
#[global] Instance result_bind : MBind result := λ A B k r,
  match r with
  | Ok a => k a
  | Raise e => Raise e
  end.
#[global] Instance result_fmap : FMap result := λ A B f r,
  match r with
  | Ok a => Ok (f a)
  | Raise e => Raise e
  end.

(** A request made to one of the two connections of [steamapi.core]:
    [APIConnection().call(interface, method, version, **params)] or
    [StoreAPIConnection().call(endpoint, **params)]. *)
Inductive request :=
| API (interface method version : string) (params : list (string * value))
| Store (endpoint : string) (params : list (string * value)).

(** The collaborators of [app.py] that live outside of it: the two
    connections (a call returns an [APIResponse] or raises), the clock
    ([time_time n] is what the [n]-th call of [time.time()] returns), the
    builtins [str] and [hash] (the latter on a tuple, given by its
    components), and the truth value and equality of [APIResponse]
    objects. *)
Class Collaborators := {
  APIConnection_call : string → string → string → list (string * value) → result (gmap string value);
  StoreAPIConnection_call : string → list (string * value) → result (gmap string value);
  time_time : nat → float;
  py_str : value → string;
  py_hash : list value → Z;
  APIResponse_bool : gmap string value → bool;
  APIResponse_eq : gmap string value → value → bool;
}.

Section Python.
Context `{Collaborators}.

(** [x is None] *)
Definition is_None (x : value) : bool :=
  match x with
  | VNone => true
  | _ => false
  end.

(** A float equals an integer when it is finite and denotes that very
    integer: Python compares the two exactly. *)
Definition float_eq_Z (f : float) (z : Z) : bool :=
  match Prim2SF f with
  | S754_zero _ => z =? 0
  | S754_finite s m e =>
      let n := if s then Z.neg m else Z.pos m in
      if 0 <=? e then z =? n * 2 ^ e else n =? z * 2 ^ (- e)
  | _ => false
  end.

(** The number a value is, if it is one ([bool] is a subtype of [int]). *)
Definition as_number (x : value) : option (Z + float) :=
  match x with
  | VBool b => Some (inl (Z.b2z b))
  | VInt z => Some (inl z)
  | VFloat f => Some (inr f)
  | _ => None
  end.

Definition number_eq (a b : Z + float) : bool :=
  match a, b with
  | inl x, inl y => x =? y
  | inl x, inr g => float_eq_Z g x
  | inr f, inl y => float_eq_Z f y
  | inr f, inr g => PrimFloat.eqb f g
  end.

(** [x == y] *)
Fixpoint py_eq (x y : value) {struct x} : bool :=
  match x, y with
  | VResp m, _ => APIResponse_eq m y
  | _, VResp m => APIResponse_eq m x
  | VNone, VNone => true
  | VStr a, VStr b => String.eqb a b
  | VList a, VList b =>
      (fix go (a b : list value) {struct a} : bool :=
         match a, b with
         | [], [] => true
         | u :: a', v :: b' => py_eq u v && go a' b'
         | _, _ => false
         end) a b
  | _, _ =>
      match as_number x, as_number y with
      | Some a, Some b => number_eq a b
      | _, _ => false
      end
  end.

(** [bool(x)], as an [if] takes it. *)
Definition truthy (x : value) : bool :=
  match x with
  | VNone => false
  | VBool b => b
  | VInt z => negb (z =? 0)
  | VFloat f => negb (PrimFloat.eqb f 0%float)
  | VStr s => negb (String.eqb s "")
  | VList l => match l with [] => false | _ => true end
  | VResp m => APIResponse_bool m
  end.

(** The field names of a response. *)
Definition keys (m : gmap string value) : list string := (map_to_list m).*1.

(** [x.attr]: a field of a response; no other value has any of the
    attributes this module reads. *)
Definition getattr (x : value) (attr : string) : result value :=
  match x with
  | VResp m =>
      match m !! attr with
      | Some v => Ok v
      | None => Raise (AttributeError attr)
      end
  | _ => Raise (AttributeError attr)
  end.

(** [x[key]] for a string key. *)
Definition getitem (x : value) (key : string) : result value :=
  match x with
  | VResp m =>
      match m !! key with
      | Some v => Ok v
      | None => Raise (KeyError key)
      end
  | _ => Raise TypeError
  end.

(** The one-character strings of a string. *)
Fixpoint characters (s : string) : list value :=
  match s with
  | EmptyString => []
  | String c s' => VStr (String c EmptyString) :: characters s'
  end.

(** What [for _ in x] runs over.  A response yields its field names; this
    module reads an attribute of each element at once, so their order is
    never observed. *)
Definition iter (x : value) : result (list value) :=
  match x with
  | VList l => Ok l
  | VResp m => Ok (VStr <$> keys m)
  | VStr s => Ok (characters s)
  | _ => Raise TypeError
  end.

(** [x in c].  On a response it says whether [x] is one of its field names,
    which is how the module tests for a field (['appid' in api_json]); on a
    list, whether [x] equals an element; on a string, whether [x] is a
    substring. *)
Definition contains (x c : value) : result bool :=
  match c with
  | VList l => Ok (existsb (py_eq x) l)
  | VResp m => Ok (existsb (λ k, py_eq x (VStr k)) (keys m))
  | VStr s =>
      match x with
      | VStr sub => Ok (bool_decide (is_Some (String.index 0 sub s)))
      | _ => Raise TypeError
      end
  | _ => Raise TypeError
  end.

End Python.

Arguments contains : simpl never.

(** ** Property reads as computations *)

(** The state a method of an object runs in: the object ([self], mutable)
    and, of the outside world, what the module does to it: the requests
    sent so far, the number of times the clock was read, and the number of
    [SteamAchievement] instances constructed. *)
Record state (Self : Type) := State {
  self : Self;
  calls : list request;
  clock_reads : nat;
  constructed : nat;
}.
Arguments State {Self} self calls clock_reads constructed.
Arguments self {Self} s.
Arguments calls {Self} s.
Arguments clock_reads {Self} s.
Arguments constructed {Self} s.

(** A computation returns or raises, and leaves a state either way. *)
Definition M (Self A : Type) : Type := state Self → result A * state Self.

#[global] Instance M_ret {Self} : MRet (M Self) := λ A a s, (Ok a, s).
#[global] Instance M_bind {Self} : MBind (M Self) := λ A B k c s,
  match c s with
  | (Ok a, s') => k a s'
  | (Raise e, s') => (Raise e, s')
  end.

Definition lift {Self A} (r : result A) : M Self A := λ s, (r, s).
Definition raise {Self A} (e : exn) : M Self A := lift (Raise e).
Definition get_self {Self} : M Self Self := λ s, (Ok (self s), s).
Definition set_self {Self} (x : Self) : M Self unit :=
  λ s, (Ok (), State x (calls s) (clock_reads s) (constructed s)).

(** A cache entry is [(value, computed_at)], keyed by the property name in
    the instance's [_cache]; an instance has no [_cache] attribute until one
    is assigned. *)
Abbreviation cache V := (gmap string (V * float)).

Class Cached (Self V : Type) := {
  get_cache : Self → option (cache V);
  set_cache : option (cache V) → Self → Self;
}.

(** Modelled from the spec: the time-to-live of a cached property, "a
    duration, or a sentinel [INFINITE] meaning never expires"; [INFINITE] is
    imported from [steamapi.decorators], which is not among the sources. *)
Inductive TTL :=
| INFINITE
| Seconds (d : float).

Section Effects.
Context `{Collaborators}.

(** [APIConnection().call(...)]: the request is sent, and the answer or
    the error is the connection's. *)
Definition APIConnection_call_ {Self} (interface method version : string)
    (params : list (string * value)) : M Self value :=
  λ s, (VResp <$> APIConnection_call interface method version params,
        State (self s) (calls s ++ [API interface method version params])
              (clock_reads s) (constructed s)).

(** [StoreAPIConnection().call(...)] *)
Definition StoreAPIConnection_call_ {Self} (endpoint : string)
    (params : list (string * value)) : M Self value :=
  λ s, (VResp <$> StoreAPIConnection_call endpoint params,
        State (self s) (calls s ++ [Store endpoint params])
              (clock_reads s) (constructed s)).

(** [time.time()] *)
Definition time_time_ {Self} : M Self float :=
  λ s, (Ok (time_time (clock_reads s)),
        State (self s) (calls s) (S (clock_reads s)) (constructed s)).

(** Modelled from the spec: [store] of [steamapi.core], which is not among
    the sources.  "Given an instance, a property name, and a value, inserts
    [(value, now)] directly into that instance's cache map."  The instance
    is another object than [self]; one without a cache map has nothing to
    insert into, and reading its [_cache] is an attribute error. *)
Definition store {Self Obj V} `{Cached Obj V} (obj : Obj) (property_name : string)
    (data : V) : M Self Obj :=
  now ← time_time_;
  match get_cache obj with
  | Some c => mret (set_cache (Some (<[property_name := (data, now)]> c)) obj)
  | None => raise (AttributeError "_cache")
  end.

(** Modelled from the spec: "if [now - computed_at >= TTL] (never true when
    TTL = INFINITE)". *)
Definition expired (ttl : TTL) (now computed_at : float) : bool :=
  match ttl with
  | INFINITE => false
  | Seconds d => PrimFloat.leb d (now - computed_at)
  end.

(** Modelled from the spec: [cached_property] of [steamapi.decorators],
    which is not among the sources.  "On read, look up [(value,
    computed_at)] in the instance's private cache map by property name.  If
    absent, or if [now - computed_at >= TTL], call [f()], store [(result,
    now)], return [result].  Otherwise return the stored value without
    invoking [f]."  When [f] raises, the error propagates and nothing is
    stored.  An instance without a cache map gets one at the first store. *)
Definition cached_property {Self V} `{Cached Self V} (ttl : TTL) (name : string)
    (fget : M Self V) : M Self V :=
  now ← time_time_;
  inst ← get_self;
  let compute : M Self V :=
    value ← fget;
    inst ← get_self;
    set_self (set_cache (Some (<[name := (value, now)]> (default ∅ (get_cache inst)))) inst);;
    mret value in
  match get_cache inst ≫= (.!! name) with
  | Some (value, last_update) =>
      if expired ttl now last_update then compute else mret value
  | None => compute
  end.

End Effects.

(** ** class SteamAchievement *)

Module SteamAchievement.

Record t := {
  _appid : value;
  _id : value;
  _displayname : value;
  _userid : value;
  unlock_percentage : value;
  _cache : option (cache value);
}.

#[global] Instance cached : Cached t value := {|
  get_cache := _cache;
  set_cache c a :=
    {| _appid := _appid a; _id := _id a; _displayname := _displayname a;
       _userid := _userid a; unlock_percentage := unlock_percentage a; _cache := c |};
|}.

(** [obj.unlock_percentage = p] *)
Definition set_unlock_percentage (p : value) (a : t) : t :=
  {| _appid := _appid a; _id := _id a; _displayname := _displayname a;
     _userid := _userid a; unlock_percentage := p; _cache := _cache a |}.

Definition __init__ (linked_appid apiname displayname linked_userid : value) : t :=
  {| _appid := linked_appid; _id := apiname; _displayname := displayname;
     _userid := linked_userid; unlock_percentage := VFloat 0.0; _cache := None |}.

(** [SteamAchievement(...)]: a new instance, initialised. *)
Definition new {Self} (linked_appid apiname displayname linked_userid : value) : M Self t :=
  λ s, (Ok (__init__ linked_appid apiname displayname linked_userid),
        State (self s) (calls s) (clock_reads s) (S (constructed s))).

(** Modelled from the spec: the [id] property of [SteamObject]
    ([steamapi.core], not among the sources) is the entity's [_id]. *)
Definition id (a : t) : value := _id a.
Definition appid (a : t) : value := _appid a.
Definition name (a : t) : value := _displayname a.
Definition apiname (a : t) : value := _id a.

(** The tuple [(self.id, self._appid)] that [__hash__] hashes. *)
Definition hash_key (a : t) : list value := [id a; _appid a].

Section Methods.
Context `{Collaborators}.

Definition __hash__ (a : t) : Z := py_hash (hash_key a).

Fixpoint is_hidden_loop (id : value) (achievements : list value) : result value :=
  match achievements with
  | [] => Ok VNone
  | achievement :: rest =>
      name ← getattr achievement "name";
      if py_eq name id then
        hidden ← getattr achievement "hidden";
        if py_eq hidden (VInt 0) then Ok (VBool false) else Ok (VBool true)
      else is_hidden_loop id rest
  end.

Definition is_hidden : M t value :=
  cached_property INFINITE "is_hidden" (
    a ← get_self;
    response ← APIConnection_call_ "ISteamUserStats" "GetSchemaForGame" "v2"
                 [("appid", _appid a)];
    lift (game ← getattr response "game";
          stats ← getattr game "availableGameStats";
          achievements ← getattr stats "achievements";
          achievements ← iter achievements;
          is_hidden_loop (_id a) achievements)).

Fixpoint is_unlocked_loop (id : value) (achievements : list value) : result value :=
  match achievements with
  | [] => Ok (VBool false)
  | achievement :: rest =>
      apiname ← getattr achievement "apiname";
      if py_eq apiname id then
        achieved ← getattr achievement "achieved";
        if py_eq achieved (VInt 1) then Ok (VBool true) else Ok (VBool false)
      else is_unlocked_loop id rest
  end.

Definition is_unlocked : M t value :=
  cached_property INFINITE "is_unlocked" (
    a ← get_self;
    if is_None (_userid a) then
      raise (ValueError "No Steam ID linked to this achievement!")
    else
      response ← APIConnection_call_ "ISteamUserStats" "GetPlayerAchievements" "v1"
                   [("steamid", _userid a); ("appid", _appid a); ("l", VStr "English")];
      lift (playerstats ← getattr response "playerstats";
            achievements ← getattr playerstats "achievements";
            achievements ← iter achievements;
            is_unlocked_loop (_id a) achievements)).

End Methods.
End SteamAchievement.

(** ** class SteamApp *)

Module SteamApp.

(** What a property of an application evaluates to, and so what its cache
    holds: a value of the API, or the list of achievement objects. *)
Inductive pyobj :=
| Val (v : value)
| Achievements (l : list SteamAchievement.t).

Record t := {
  _id : value;
  _cache : option (cache pyobj);
  _owner : value;
  _userid : value;
}.

#[global] Instance cached : Cached t pyobj := {|
  get_cache := _cache;
  set_cache c a := {| _id := _id a; _cache := c; _owner := _owner a; _userid := _userid a |};
|}.

(** Modelled from the spec: the [id] property of [SteamObject]
    ([steamapi.core], not among the sources) is the entity's [_id]. *)
Definition id (a : t) : value := _id a.
Definition appid (a : t) : value := _id a.

(** The tuple [('app', self.id)] that [__hash__] hashes. *)
Definition hash_key (a : t) : list value := [VStr "app"; id a].

Section Methods.
Context `{Collaborators}.

Definition __init__ {Self} (appid name owner : value) : M Self t :=
  c ← (if negb (is_None name) then
         now ← time_time_;
         mret (Some ({[ "name" := (Val name, now) ]} : cache pyobj))
       else mret None);
  mret {| _id := appid; _cache := c; _owner := owner; _userid := owner |}.

Definition from_api_response {Self} (api_json associated_userid : value) : M Self t :=
  has_appid ← lift (contains (VStr "appid") api_json);
  if negb has_appid then
    raise (ValueError "An app ID is required to create a SteamApp object.")
  else
    appid ← lift (getattr api_json "appid");
    has_name ← lift (contains (VStr "name") api_json);
    name ← (if (has_name : bool) then lift (getattr api_json "name") else mret VNone : M Self value);
    __init__ appid name associated_userid.

(** [o.attr] and [bool(o)] on what a property returned; a Python list has
    none of the attributes read here. *)
Definition obj_getattr (o : pyobj) (attr : string) : result value :=
  match o with
  | Val v => getattr v attr
  | Achievements _ => Raise (AttributeError attr)
  end.

Definition obj_truthy (o : pyobj) : bool :=
  match o with
  | Val v => truthy v
  | Achievements l => match l with [] => false | _ => true end
  end.

Definition _schema : M t pyobj :=
  cached_property INFINITE "_schema" (
    a ← get_self;
    response ← APIConnection_call_ "ISteamUserStats" "GetSchemaForGame" "v2" [("appid", _id a)];
    mret (Val response)).

(** The comprehension [[a.name for a in ... if a.achieved != 0]]. *)
Fixpoint unlocked_names (associated_achievements : list value) : result (list value) :=
  match associated_achievements with
  | [] => Ok []
  | associated_achievement :: rest =>
      achieved ← getattr associated_achievement "achieved";
      if negb (py_eq achieved (VInt 0)) then
        name ← getattr associated_achievement "name";
        names ← unlocked_names rest;
        Ok (name :: names)
      else unlocked_names rest
  end.

(** The loop over the global percentages, for one achievement of the
    schema. *)
Fixpoint percentage_loop (achievement : value) (global_achievements : list value)
    (achievement_obj : SteamAchievement.t) : result SteamAchievement.t :=
  match global_achievements with
  | [] => Ok achievement_obj
  | global_achievement :: rest =>
      global_name ← getattr global_achievement "name";
      name ← getattr achievement "name";
      if py_eq global_name name then
        percent ← getattr global_achievement "percent";
        percentage_loop achievement rest
          (SteamAchievement.set_unlock_percentage percent achievement_obj)
      else percentage_loop achievement rest achievement_obj
  end.

(** The loop over the achievements of the schema. *)
Fixpoint schema_loop (appid userid global_percentages : value) (achievements : list value)
    (achievements_list : list SteamAchievement.t) : M t (list SteamAchievement.t) :=
  match achievements with
  | [] => mret achievements_list
  | achievement :: rest =>
      name ← lift (getattr achievement "name");
      displayName ← lift (getattr achievement "displayName");
      achievement_obj ← SteamAchievement.new appid name displayName userid;
      let achievement_obj := set_cache (Some ∅) achievement_obj in
      hidden ← lift (getattr achievement "hidden");
      achievement_obj ← (if py_eq hidden (VInt 0)
                         then store achievement_obj "is_hidden" (VBool false)
                         else store achievement_obj "is_hidden" (VBool true));
      global_achievements ← lift (percentages ← getattr global_percentages "achievementpercentages";
                                  l ← getattr percentages "achievements";
                                  iter l);
      achievement_obj ← lift (percentage_loop achievement global_achievements achievement_obj);
      schema_loop appid userid global_percentages rest (achievements_list ++ [achievement_obj])
  end.

(** The loop that records, on every achievement, whether the user has it. *)
Fixpoint unlocks_loop (unlocks : value) (achievements_list : list SteamAchievement.t)
    : M t (list SteamAchievement.t) :=
  match achievements_list with
  | [] => mret []
  | achievement :: rest =>
      unlocked ← lift (contains (SteamAchievement.apiname achievement) unlocks);
      achievement ← (if (unlocked : bool)
                     then store achievement "is_achieved" (VBool true)
                     else store achievement "is_achieved" (VBool false));
      rest ← unlocks_loop unlocks rest;
      mret (achievement :: rest)
  end.

(** Lines 59-73 of [achievements]: the user the achievements are linked
    to, and what is known of their unlocks.  [unlocks] ends up being the
    list of the achieved names, or the whole response when its [playerstats]
    has no [achievements], or [None] without a user. *)
Definition user_unlocks : M t (value * value) :=
  a ← get_self;
  if negb (is_None (_userid a)) then
    let userid := _userid a in
    unlocks ← APIConnection_call_ "ISteamUserStats" "GetUserStatsForGame" "v2"
                [("appid", _id a); ("steamid", userid)];
    playerstats ← lift (getattr unlocks "playerstats");
    has_achievements ← lift (contains (VStr "achievements") playerstats);
    if (has_achievements : bool) then
      names ← lift (playerstats ← getattr unlocks "playerstats";
                    l ← getattr playerstats "achievements";
                    l ← iter l;
                    unlocked_names l);
      mret (userid, VList names)
    else mret (userid, unlocks)
  else mret (VNone, VNone).

(** Lines 74-95 of [achievements]: the achievements of the schema, each
    with its percentage and flags. *)
Definition assemble (global_percentages userid unlocks : value) : M t pyobj :=
  a ← get_self;
  let achievements_list := [] in
  schema ← _schema;
  game ← lift (obj_getattr schema "game");
  has_stats ← lift (contains (VStr "availableGameStats") game);
  if negb has_stats then mret (Achievements achievements_list)
  else
    schema ← _schema;
    l ← lift (game ← obj_getattr schema "game";
              stats ← getattr game "availableGameStats";
              l ← getattr stats "achievements";
              iter l);
    achievements_list ← schema_loop (_id a) userid global_percentages l achievements_list;
    achievements_list ← (if negb (is_None unlocks)
                         then unlocks_loop unlocks achievements_list
                         else mret achievements_list);
    mret (Achievements achievements_list).

Definition achievements : M t pyobj :=
  cached_property INFINITE "achievements" (
    a ← get_self;
    global_percentages ← APIConnection_call_ "ISteamUserStats"
                           "GetGlobalAchievementPercentagesForApp" "v0002" [("gameid", _id a)];
    bound ← user_unlocks;
    let '(userid, unlocks) := bound in
    assemble global_percentages userid unlocks).

Definition name : M t pyobj :=
  cached_property INFINITE "name" (
    schema ← _schema;
    game ← lift (obj_getattr schema "game");
    has_name ← lift (contains (VStr "gameName") game);
    if (has_name : bool) then
      schema ← _schema;
      gameName ← lift (game ← obj_getattr schema "game"; getattr game "gameName");
      mret (Val gameName)
    else mret (Val (VStr "<Unknown>"))).

Definition owner : M t pyobj :=
  cached_property INFINITE "owner" (
    a ← get_self;
    if is_None (_owner a) then mret (Val (_userid a)) else mret (Val (_owner a))).

Definition app_info_filters : string :=
  "basic,fullgame,developers," ++ "publishers,demos,price_overview," ++
  "platforms,metacritic,categories," ++ "genres,recommendations," ++ "release_date".

Definition app_info : M t pyobj :=
  cached_property INFINITE "app_info" (
    a ← get_self;
    response ← StoreAPIConnection_call_ "appdetails"
                 [("appids", _id a); ("filters", VStr app_info_filters)];
    entry ← lift (getitem response (py_str (_id a)));
    success ← lift (getattr entry "success");
    if truthy success then
      data ← lift (entry ← getitem response (py_str (_id a)); getattr entry "data");
      mret (Val data)
    else mret (Val VNone)).

(** The shape of every accessor of the store metadata:
    [if self.app_info: return self.app_info.<field>]. *)
Definition app_info_field (field : string) : M t value :=
  info ← app_info;
  if obj_truthy info then
    info ← app_info;
    lift (obj_getattr info field)
  else mret VNone.

Definition type := app_info_field "type".
Definition required_age := app_info_field "required_age".
Definition dlc := app_info_field "dlc".
Definition detailed_description := app_info_field "detailed_description".
Definition about_the_game := app_info_field "about_the_game".
Definition supported_languages := app_info_field "supported_languages".
Definition header_image := app_info_field "header_image".
Definition legal_notice := app_info_field "legal_notice".
Definition website := app_info_field "website".
Definition pc_requirements := app_info_field "pc_requirements".
Definition mac_requirements := app_info_field "mac_requirements".
Definition linux_requirements := app_info_field "linux_requirements".
Definition fullgame := app_info_field "fullgame".
Definition developers := app_info_field "developers".
Definition publishers := app_info_field "publishers".
Definition demos := app_info_field "demos".
Definition price_overview := app_info_field "price_overview".
Definition platforms := app_info_field "platforms".
Definition metacritic := app_info_field "metacritic".
Definition categories := app_info_field "categories".
Definition genres := app_info_field "genres".
Definition recommendations := app_info_field "recommendations".
Definition release_date := app_info_field "release_date".

(** Every accessor derived from [app_info]. *)
Definition derived_accessors : list (M t value) :=
  [type; required_age; dlc; detailed_description; about_the_game; supported_languages;
   header_image; legal_notice; website; pc_requirements; mac_requirements;
   linux_requirements; fullgame; developers; publishers; demos; price_overview;
   platforms; metacritic; categories; genres; recommendations; release_date].

Definition __str__ : M t pyobj := name.

Definition __hash__ (a : t) : Z := py_hash (hash_key a).

End Methods.
End SteamApp.

(** ** A scripted API

    Collaborators that answer every request with a canned response, as a
    test double of the web API does; the examples below run the module
    against them. *)

Module Scripted.

(** A JSON object, from its fields. *)
Definition obj (fields : list (string * value)) : value := VResp (list_to_map fields).

Definition api (schema percentages user_stats player_achievements appdetails
    : gmap string value) : Collaborators := {|
  APIConnection_call interface method version params :=
    if String.eqb method "GetSchemaForGame" then Ok schema
    else if String.eqb method "GetGlobalAchievementPercentagesForApp" then Ok percentages
    else if String.eqb method "GetUserStatsForGame" then Ok user_stats
    else if String.eqb method "GetPlayerAchievements" then Ok player_achievements
    else Raise (APIError "unknown method");
  StoreAPIConnection_call endpoint params := Ok appdetails;
  time_time n := (1700000000.0 + PrimFloat.of_uint63 (Uint63.of_Z (Z.of_nat n)))%float;
  py_str x :=
    match x with
    | VInt z => pretty z
    | VStr s => s
    | _ => "?"
    end;
  py_hash components := Z.of_nat (length components);
  APIResponse_bool _ := true;
  APIResponse_eq _ _ := false;
|}.

(** The schema of a game with the achievements [A] and [B]. *)
Definition definitions_A_B : list value :=
  [obj [("name", VStr "A"); ("displayName", VStr "First"); ("hidden", VInt 0)];
   obj [("name", VStr "B"); ("displayName", VStr "Second"); ("hidden", VInt 1)]].

Definition schema_A_B : gmap string value :=
  {[ "game" := obj [("gameName", VStr "Portal");
       ("availableGameStats", obj [("achievements", VList definitions_A_B)])] ]}.

(** The schema of an application without metadata: neither a name nor
    statistics. *)
Definition schema_hidden : gmap string value := {[ "game" := obj [] ]}.

(** The schema of a game whose only achievement has the API name
    [playerstats]. *)
Definition schema_playerstats : gmap string value :=
  {[ "game" := obj [("gameName", VStr "Portal");
       ("availableGameStats", obj [("achievements", VList [
          obj [("name", VStr "playerstats"); ("displayName", VStr "Statistician");
               ("hidden", VInt 0)]])])] ]}.

(** Global percentages [{A: 10.0, B: 20.0}]. *)
Definition globals_A_B : list value :=
  [obj [("name", VStr "A"); ("percent", VFloat 10.0)];
   obj [("name", VStr "B"); ("percent", VFloat 20.0)]].

Definition percentages_A_B : gmap string value :=
  {[ "achievementpercentages" := obj [("achievements", VList globals_A_B)] ]}.

(** The statistics of a user who achieved [A]. *)
Definition entries_A : list value :=
  [obj [("name", VStr "A"); ("achieved", VInt 1)]].

Definition user_stats_A : gmap string value :=
  {[ "playerstats" := obj [("steamID", VStr "7"); ("gameName", VStr "Portal");
       ("achievements", VList entries_A)] ]}.

(** The statistics of a user who unlocked nothing: no [achievements]. *)
Definition playerstats_none : gmap string value :=
  {[ "steamID" := VStr "7"; "gameName" := VStr "Portal" ]}.

Definition user_stats_none : gmap string value :=
  {[ "playerstats" := VResp playerstats_none ]}.

(** The player achievements of a user, of which [A] is unlocked. *)
Definition player_achievements_A : gmap string value :=
  {[ "playerstats" := obj [("steamID", VStr "7"); ("gameName", VStr "Portal");
       ("achievements", VList [
          obj [("apiname", VStr "A"); ("achieved", VInt 1)];
          obj [("apiname", VStr "B"); ("achieved", VInt 0)]])] ]}.

(** The answer of the store for an application it has no data of. *)
Definition appdetails_failed : gmap string value :=
  {[ "100" := obj [("success", VBool false)] ]}.

(** The web API of a game with the achievements [A] and [B]. *)
Definition game_A_B : Collaborators :=
  api schema_A_B percentages_A_B user_stats_A player_achievements_A appdetails_failed.

(** The web API of an application without metadata. *)
Definition hidden_app : Collaborators :=
  api schema_hidden percentages_A_B user_stats_A player_achievements_A appdetails_failed.

(** The web API of the game with the achievement [playerstats], for a user
    who unlocked nothing. *)
Definition game_playerstats : Collaborators :=
  api schema_playerstats percentages_A_B user_stats_none player_achievements_A
      appdetails_failed.

(** Before anything happened. *)
Definition initially {Self} (x : Self) : state Self := State x [] 0 0.

(** Application 100, of user 7 or of nobody, as its constructor leaves it
    when no name is given. *)
Definition app_of (owner : value) : SteamApp.t :=
  {| SteamApp._id := VInt 100; SteamApp._cache := None;
     SteamApp._owner := owner; SteamApp._userid := owner |}.

(** Application 100 as its constructor leaves it when given the name
    [Portal], at the first reading of the clock. *)
Definition app_named : SteamApp.t :=
  {| SteamApp._id := VInt 100;
     SteamApp._cache := Some {[ "name" := (SteamApp.Val (VStr "Portal"), 1700000000.0%float) ]};
     SteamApp._owner := VNone; SteamApp._userid := VNone |}.

(** The two achievements the aggregation returns for the game with [A]
    and [B] and the user who achieved [A]; the clock was read three times
    before the first [store]. *)
Definition achievement_A : SteamAchievement.t :=
  {| SteamAchievement._appid := VInt 100; SteamAchievement._id := VStr "A";
     SteamAchievement._displayname := VStr "First"; SteamAchievement._userid := VInt 7;
     SteamAchievement.unlock_percentage := VFloat 10.0;
     SteamAchievement._cache :=
       Some {[ "is_hidden" := (VBool false, 1700000003.0%float);
               "is_achieved" := (VBool true, 1700000005.0%float) ]} |}.

Definition achievement_B : SteamAchievement.t :=
  {| SteamAchievement._appid := VInt 100; SteamAchievement._id := VStr "B";
     SteamAchievement._displayname := VStr "Second"; SteamAchievement._userid := VInt 7;
     SteamAchievement.unlock_percentage := VFloat 20.0;
     SteamAchievement._cache :=
       Some {[ "is_hidden" := (VBool true, 1700000004.0%float);
               "is_achieved" := (VBool false, 1700000006.0%float) ]} |}.

(** The achievement the aggregation returns for the game with
    [playerstats] and the user who unlocked nothing. *)
Definition achievement_playerstats : SteamAchievement.t :=
  {| SteamAchievement._appid := VInt 100; SteamAchievement._id := VStr "playerstats";
     SteamAchievement._displayname := VStr "Statistician"; SteamAchievement._userid := VInt 7;
     SteamAchievement.unlock_percentage := VFloat 0.0;
     SteamAchievement._cache :=
       Some {[ "is_hidden" := (VBool false, 1700000003.0%float);
               "is_achieved" := (VBool true, 1700000004.0%float) ]} |}.

(** The answer of the store for application 100, a game. *)
Definition appdetails_portal : gmap string value :=
  {[ "100" := obj [("success", VBool true);
                   ("data", obj [("type", VStr "game"); ("required_age", VInt 0);
                                 ("developers", VList [VStr "Valve"])])] ]}.

(** The web API of the game with [A] and [B], known to the store. *)
Definition game_in_store : Collaborators :=
  api schema_A_B percentages_A_B user_stats_A player_achievements_A appdetails_portal.

(** A web API whose every request fails. *)
Definition offline : Collaborators := {|
  APIConnection_call interface method version params := Raise (APIError "offline");
  StoreAPIConnection_call endpoint params := Raise (APIError "offline");
  time_time := time_time (Collaborators := game_A_B);
  py_str := py_str (Collaborators := game_A_B);
  py_hash := py_hash (Collaborators := game_A_B);
  APIResponse_bool := APIResponse_bool (Collaborators := game_A_B);
  APIResponse_eq := APIResponse_eq (Collaborators := game_A_B);
|}.

End Scripted.

(** ** The vocabulary of the properties *)

(** One more reading of the clock, and nothing else. *)
Definition tick {Self} (s : state Self) : state Self :=
  State (self s) (calls s) (S (clock_reads s)) (constructed s).

(** The entry of a property in the cache of an object, if any. *)
Definition cache_entry {Self V} `{Cached Self V} (x : Self) (name : string)
    : option (V * float) :=
  get_cache x ≫= (.!! name).

(** The object with [(value, now)] stored for a property. *)
Definition with_entry {Self V} `{Cached Self V} (x : Self) (name : string)
    (value : V) (now : float) : Self :=
  set_cache (Some (<[name := (value, now)]> (default ∅ (get_cache x)))) x.

Section Vocabulary.
Context `{Collaborators}.

Definition schema_request (a : SteamApp.t) : request :=
  API "ISteamUserStats" "GetSchemaForGame" "v2" [("appid", SteamApp._id a)].

Definition percentages_request (a : SteamApp.t) : request :=
  API "ISteamUserStats" "GetGlobalAchievementPercentagesForApp" "v0002"
      [("gameid", SteamApp._id a)].

Definition user_stats_request (a : SteamApp.t) : request :=
  API "ISteamUserStats" "GetUserStatsForGame" "v2"
      [("appid", SteamApp._id a); ("steamid", SteamApp._userid a)].

Definition app_info_request (a : SteamApp.t) : request :=
  Store "appdetails" [("appids", SteamApp._id a); ("filters", VStr SteamApp.app_info_filters)].

(** The schema an application sees: the cached one, or else the answer of
    the API. *)
Definition schema_of (a : SteamApp.t) : result SteamApp.pyobj :=
  match cache_entry a "_schema" with
  | Some (schema, _) => Ok schema
  | None =>
      SteamApp.Val ∘ VResp <$>
        APIConnection_call "ISteamUserStats" "GetSchemaForGame" "v2"
          [("appid", SteamApp._id a)]
  end.

(** The requests a read of the schema sends: one, unless it is cached. *)
Definition schema_calls (a : SteamApp.t) : list request :=
  match cache_entry a "_schema" with
  | Some _ => []
  | None => [schema_request a]
  end.

(** The state after a read of [_schema] that returned [schema]. *)
Definition after_schema (schema : SteamApp.pyobj) (s : state SteamApp.t)
    : state SteamApp.t :=
  State (match cache_entry (self s) "_schema" with
         | Some _ => self s
         | None => with_entry (self s) "_schema" schema (time_time (clock_reads s))
         end)
        (calls s ++ schema_calls (self s)) (S (clock_reads s)) (constructed s).

(** The state after the statistics of the user were requested. *)
Definition after_user_stats (s : state SteamApp.t) : state SteamApp.t :=
  State (self s) (calls s ++ [user_stats_request (self s)]) (clock_reads s) (constructed s).

(** The state after the percentages were requested, at the start of the
    computation of [achievements]. *)
Definition after_percentages (s : state SteamApp.t) : state SteamApp.t :=
  State (self s) (calls s ++ [percentages_request (self s)]) (S (clock_reads s))
        (constructed s).

(** The state after a read of [app_info] that fetched no data. *)
Definition after_app_info (s : state SteamApp.t) : state SteamApp.t :=
  State (with_entry (self s) "app_info" (SteamApp.Val VNone) (time_time (clock_reads s)))
        (calls s ++ [app_info_request (self s)]) (S (clock_reads s)) (constructed s).

(** The store answered [success] false for the application of [s]. *)
Definition store_failed (s : state SteamApp.t) : Prop :=
  ∃ response entry success,
    StoreAPIConnection_call "appdetails"
      [("appids", SteamApp._id (self s)); ("filters", VStr SteamApp.app_info_filters)] =
      Ok response ∧
    response !! py_str (SteamApp._id (self s)) = Some entry ∧
    getattr entry "success" = Ok success ∧
    truthy success = false.

(** The three lists the aggregation runs over: the achievements the schema
    defines, the entries of the global percentages, and the entries of the
    statistics of the user. *)
Definition schema_definitions (schema : SteamApp.pyobj) : result (list value) :=
  game ← SteamApp.obj_getattr schema "game";
  stats ← getattr game "availableGameStats";
  achievements ← getattr stats "achievements";
  iter achievements.

Definition global_entries (global_percentages : value) : result (list value) :=
  percentages ← getattr global_percentages "achievementpercentages";
  achievements ← getattr percentages "achievements";
  iter achievements.

Definition user_entries (unlocks : value) : result (list value) :=
  playerstats ← getattr unlocks "playerstats";
  achievements ← getattr playerstats "achievements";
  iter achievements.

(** Entries that have the fields the aggregation reads of them. *)
Definition schema_entry (achievement : value) : Prop :=
  ∃ name displayName hidden,
    getattr achievement "name" = Ok name ∧
    getattr achievement "displayName" = Ok displayName ∧
    getattr achievement "hidden" = Ok hidden.

Definition percentage_entry (global_achievement : value) : Prop :=
  ∃ name percent,
    getattr global_achievement "name" = Ok name ∧
    getattr global_achievement "percent" = Ok percent.

Definition stats_entry (associated_achievement : value) : Prop :=
  ∃ name achieved,
    getattr associated_achievement "name" = Ok name ∧
    getattr associated_achievement "achieved" = Ok achieved.

(** A global entry is of the achievement with this API name, or not. *)
Definition names (global_achievement api_name : value) (b : bool) : Prop :=
  ∃ name, getattr global_achievement "name" = Ok name ∧ py_eq name api_name = b.

(** Spec: "[unlock_percentage] from the matching entry in the
    global-percentage result (join by [api_name]; unmatched defaults to
    0.0)".  Of several matching entries the last one counts. *)
Definition matching_percentage (globals : list value) (api_name percentage : value) : Prop :=
  (Forall (λ g, names g api_name false) globals ∧ percentage = VFloat 0.0) ∨
  (∃ (before : list value) (g : value) (after : list value),
     globals = (before ++ g :: after)%list ∧ names g api_name true ∧
     getattr g "percent" = Ok percentage ∧
     Forall (λ g', names g' api_name false) after).

(** Spec: the achieved set of the user is the "apiname values where
    achieved flag ≠ 0". *)
Definition achieved_by_user (entries : list value) (api_name : value) : Prop :=
  ∃ entry name achieved,
    entry ∈ entries ∧
    getattr entry "name" = Ok name ∧ getattr entry "achieved" = Ok achieved ∧
    py_eq achieved (VInt 0) = false ∧ py_eq api_name name = true.

(** The flag the aggregation stored on an achievement, if any. *)
Definition is_achieved (achievement : SteamAchievement.t) : option value :=
  fst <$> cache_entry achievement "is_achieved".

Definition is_hidden_stored (achievement : SteamAchievement.t) : option value :=
  fst <$> cache_entry achievement "is_hidden".

(** What the loop over the schema makes of the definition [d]: an
    achievement of the application and the user, with the names of [d], its
    percentage, and [is_hidden] as its only cache entry. *)
Definition built_from (appid userid : value) (globals : list value)
    (d : value) (a : SteamAchievement.t) : Prop :=
  getattr d "name" = Ok (SteamAchievement._id a) ∧
  getattr d "displayName" = Ok (SteamAchievement._displayname a) ∧
  SteamAchievement._appid a = appid ∧
  SteamAchievement._userid a = userid ∧
  matching_percentage globals (SteamAchievement._id a) (SteamAchievement.unlock_percentage a) ∧
  ∃ hidden t,
    getattr d "hidden" = Ok hidden ∧
    SteamAchievement._cache a =
      Some {[ "is_hidden" := (VBool (negb (py_eq hidden (VInt 0))), t) ]}.

(** What the loop over the unlocks makes of the achievement [a]: the same
    achievement with [is_achieved] stored. *)
Definition marked_from (unlocks : value) (a a' : SteamAchievement.t) : Prop :=
  ∃ unlocked t c,
    contains (SteamAchievement.apiname a) unlocks = Ok unlocked ∧
    SteamAchievement._cache a = Some c ∧
    a' = set_cache (Some (<["is_achieved" := (VBool unlocked, t)]> c)) a.

(** What [assemble] makes of the definition [d], given what is known of
    the unlocks. *)
Definition aggregated (appid userid : value) (globals : list value) (unlocks : value)
    (d : value) (a : SteamAchievement.t) : Prop :=
  getattr d "name" = Ok (SteamAchievement._id a) ∧
  getattr d "displayName" = Ok (SteamAchievement._displayname a) ∧
  SteamAchievement._appid a = appid ∧
  SteamAchievement._userid a = userid ∧
  matching_percentage globals (SteamAchievement._id a) (SteamAchievement.unlock_percentage a) ∧
  (∃ hidden, getattr d "hidden" = Ok hidden ∧
             is_hidden_stored a = Some (VBool (negb (py_eq hidden (VInt 0))))) ∧
  is_achieved a =
    (if is_None unlocks then None
     else match contains (SteamAchievement._id a) unlocks with
          | Ok unlocked => Some (VBool unlocked)
          | Raise _ => None
          end).

(** Whatever is looked for in it, [unlocks] can be searched. *)
Definition searchable (unlocks : value) : Prop :=
  ∀ x, ∃ found, contains x unlocks = Ok found.

(** The statistics of the user have what lines 59-73 read of them: there is
    no user; or the response has a [playerstats] section with well-formed
    [achievements]; or it has one without [achievements]. *)
Definition user_stats_readable (a : SteamApp.t) : Prop :=
  is_None (SteamApp._userid a) = true ∨
  ∃ user_stats,
    APIConnection_call "ISteamUserStats" "GetUserStatsForGame" "v2"
      [("appid", SteamApp._id a); ("steamid", SteamApp._userid a)] = Ok user_stats ∧
    ((∃ entries, user_entries (VResp user_stats) = Ok entries ∧ Forall stats_entry entries) ∨
     (∃ playerstats, user_stats !! "playerstats" = Some (VResp playerstats) ∧
                     playerstats !! "achievements" = None)).

(** Spec: "the resulting sequence has [A.unlock_percentage == 10.0,
    A.is_achieved == True]": what the aggregation owes to the definition
    [d], given the global entries and the entries of the user. *)
Definition merged (globals entries : list value) (d : value) (a : SteamAchievement.t)
    : Prop :=
  getattr d "name" = Ok (SteamAchievement._id a) ∧
  matching_percentage globals (SteamAchievement._id a) (SteamAchievement.unlock_percentage a) ∧
  ∃ achieved : bool,
    is_achieved a = Some (VBool achieved) ∧
    (achieved = true ↔ achieved_by_user entries (SteamAchievement._id a)).

End Vocabulary.

(** ** More vocabulary: the rest of the module *)

Section FurtherVocabulary.
Context `{Collaborators}.

(** The properties of an application that are cached for ever. *)
Definition cached_properties : list (M SteamApp.t SteamApp.pyobj) :=
  [SteamApp._schema; SteamApp.achievements; SteamApp.name; SteamApp.owner;
   SteamApp.app_info].

(** An entry of the player achievements is of the achievement with this
    API name, or not. *)
Definition has_apiname (entry api_name : value) (b : bool) : Prop :=
  ∃ apiname, getattr entry "apiname" = Ok apiname ∧ py_eq apiname api_name = b.

(** What [assemble] returns for the definition [d]: what the loop over the
    schema built, with [is_achieved] stored when there are unlocks. *)
Definition assembled (appid userid : value) (globals : list value) (unlocks : value)
    (d : value) (a : SteamAchievement.t) : Prop :=
  ∃ a0, built_from appid userid globals d a0 ∧
        if is_None unlocks then a = a0 else marked_from unlocks a0 a.

(** The state after a read of [app_info] that fetched [info]. *)
Definition after_app_info_with (info : value) (s : state SteamApp.t) : state SteamApp.t :=
  State (with_entry (self s) "app_info" (SteamApp.Val info) (time_time (clock_reads s)))
        (calls s ++ [app_info_request (self s)]) (S (clock_reads s)) (constructed s).

(** The store answered [success] true, with [data], for the application of
    [s]. *)
Definition store_succeeded (s : state SteamApp.t) (data : value) : Prop :=
  ∃ response entry success,
    StoreAPIConnection_call "appdetails"
      [("appids", SteamApp._id (self s)); ("filters", VStr SteamApp.app_info_filters)] =
      Ok response ∧
    response !! py_str (SteamApp._id (self s)) = Some entry ∧
    getattr entry "success" = Ok success ∧
    truthy success = true ∧
    getattr entry "data" = Ok data.

End FurtherVocabulary.

(** Lists of entries given in full are well formed. *)
Ltac well_formed :=
  repeat (constructor; [repeat eexists; reflexivity|]); constructor.

(** An entry given in full has the name it shows. *)
Ltac named := eexists; split; reflexivity.

(** User 7 of the scripted API has readable statistics. *)
Ltac readable_for_user_7 :=
  right; exists Scripted.user_stats_A; split; [reflexivity|]; left;
  eexists; split; [reflexivity|]; well_formed.

(** * Properties *)

(** ** The Python primitives *)

Section PythonFacts.
Context `{Collaborators}.

Lemma py_eq_str (a b : string) : py_eq (VStr a) (VStr b) = String.eqb a b.
Proof. reflexivity. Qed.

(** On a response, [key in response] says whether the field exists. *)
Lemma contains_key (k : string) (m : gmap string value) :
  contains (VStr k) (VResp m) = Ok (bool_decide (is_Some (m !! k))).
Proof.
  unfold contains, keys. f_equal.
  apply eq_true_iff_eq. rewrite existsb_exists, bool_decide_eq_true. split.
  - intros (k' & Hin & Heq). rewrite py_eq_str in Heq.
    apply String.eqb_eq in Heq as <-.
    apply list_elem_of_In, list_elem_of_fmap in Hin as ([k0 v] & -> & Hin).
    apply elem_of_map_to_list in Hin. simpl. eauto.
  - intros [v Hv]. exists k. split; [|rewrite py_eq_str; apply String.eqb_refl].
    apply list_elem_of_In, list_elem_of_fmap. exists (k, v). split; [done|].
    by apply elem_of_map_to_list.
Qed.

Lemma contains_key_absent (k : string) (m : gmap string value) :
  m !! k = None → contains (VStr k) (VResp m) = Ok false.
Proof.
  intros Hk. by rewrite contains_key, Hk.
Qed.

Lemma contains_key_present (k : string) (m : gmap string value) (v : value) :
  m !! k = Some v → contains (VStr k) (VResp m) = Ok true.
Proof.
  intros Hk. by rewrite contains_key, Hk.
Qed.

Lemma getattr_field (m : gmap string value) (k : string) (v : value) :
  m !! k = Some v → getattr (VResp m) k = Ok v.
Proof. intros Hk. simpl. by rewrite Hk. Qed.

End PythonFacts.

(** ** The cache *)

Section CacheFacts.
Context `{Collaborators}.
Context {Self V : Type} `{Cached Self V}.

(** A cached property with an entry returns it and does not run the
    computation. *)
Lemma cached_property_hit (name : string) (fget : M Self V) (s : state Self)
    (v : V) (t : float) :
  cache_entry (self s) name = Some (v, t) →
  cached_property INFINITE name fget s = (Ok v, tick s).
Proof.
  unfold cache_entry, cached_property. intros Hc.
  unfold mbind at 1, M_bind at 1. simpl.
  unfold mbind at 1, M_bind at 1. simpl.
  by rewrite Hc.
Qed.

(** Without an entry the computation runs, on the state after the clock was
    read; its result is stored, its error is passed on. *)
Lemma cached_property_miss (ttl : TTL) (name : string) (fget : M Self V)
    (s : state Self) :
  cache_entry (self s) name = None →
  cached_property ttl name fget s =
    match fget (tick s) with
    | (Ok v, s') =>
        (Ok v, State (with_entry (self s') name v (time_time (clock_reads s)))
                     (calls s') (clock_reads s') (constructed s'))
    | (Raise e, s') => (Raise e, s')
    end.
Proof.
  unfold cache_entry, cached_property. intros Hc.
  unfold mbind at 1, M_bind at 1. simpl.
  unfold mbind at 1, M_bind at 1. simpl.
  rewrite Hc. unfold mbind, M_bind, tick. simpl.
  by destruct (fget _) as [[v|e] s'].
Qed.

End CacheFacts.

(** ** Construction *)

Section Construction.
Context `{Collaborators}.

(** The constructor, given no name, leaves the instance without a cache;
    given one, it stores it as the cached [name]. *)
Lemma init_without_name {Self} (appid owner : value) (s : state Self) :
  SteamApp.__init__ appid VNone owner s =
    (Ok {| SteamApp._id := appid; SteamApp._cache := None;
           SteamApp._owner := owner; SteamApp._userid := owner |}, s).
Proof. reflexivity. Qed.

Lemma init_with_name {Self} (appid name owner : value) (s : state Self) :
  is_None name = false →
  SteamApp.__init__ appid name owner s =
    (Ok {| SteamApp._id := appid;
           SteamApp._cache := Some {[ "name" := (SteamApp.Val name, time_time (clock_reads s)) ]};
           SteamApp._owner := owner; SteamApp._userid := owner |}, tick s).
Proof.
  intros Hname. unfold SteamApp.__init__, mbind, M_bind. by rewrite Hname.
Qed.

(** C6.  A response fragment without an [appid] field is refused by
    [from_api_response] with a [ValueError], at once: nothing was read or
    requested before, and no [SteamApp] is returned. *)
Theorem C6_from_api_response_requires_appid {Self} (api_json : gmap string value)
    (associated_userid : value) (s : state Self) :
  api_json !! "appid" = None →
  SteamApp.from_api_response (VResp api_json) associated_userid s =
    (Raise (ValueError "An app ID is required to create a SteamApp object."), s).
Proof.
  intros Hid. unfold SteamApp.from_api_response.
  unfold mbind at 1, M_bind at 1, lift.
  by rewrite (contains_key_absent _ _ Hid).
Qed.

End Construction.

(** A fragment with a name and no id. *)
Lemma C6_from_api_response_requires_appid_witness :
  SteamApp.from_api_response (H := Scripted.game_A_B)
    (VResp {[ "name" := VStr "Portal" ]}) (VInt 7) (Scripted.initially ()) =
  (Raise (ValueError "An app ID is required to create a SteamApp object."),
   Scripted.initially ()).
Proof. apply C6_from_api_response_requires_appid. reflexivity. Defined.

(** ** Identity *)

(** The tuples the two classes hash agree only when the achievement is
    named [app] and belongs to the application. *)
Lemma hash_keys_agree (app : SteamApp.t) (achievement : SteamAchievement.t) :
  SteamApp.hash_key app = SteamAchievement.hash_key achievement ↔
  SteamAchievement.id achievement = VStr "app" ∧
  SteamAchievement._appid achievement = SteamApp.id app.
Proof.
  unfold SteamApp.hash_key, SteamAchievement.hash_key. split.
  - intros [= Hname Happ]. by split.
  - intros [-> ->]. reflexivity.
Qed.

(** C5.  [SteamApp.__hash__] hashes [('app', id)], but
    [SteamAchievement.__hash__] hashes [(id, appid)], without a tag for its
    type.  So, whatever the builtin [hash] is, application 100 and the
    achievement named [app] of application 100 have the same hash; and so
    have an application and an achievement that share the id [app]. *)
Theorem C5_hash_without_type_tag_collides :
  ∀ H : Collaborators,
    SteamApp.__hash__ (Scripted.app_of VNone) =
      SteamAchievement.__hash__
        (SteamAchievement.__init__ (VInt 100) (VStr "app") (VStr "Application") VNone) ∧
    SteamApp.__hash__
      {| SteamApp._id := VStr "app"; SteamApp._cache := None;
         SteamApp._owner := VNone; SteamApp._userid := VNone |} =
      SteamAchievement.__hash__
        (SteamAchievement.__init__ (VStr "app") (VStr "app") (VStr "Application") VNone).
Proof.
  intros H. unfold SteamApp.__hash__, SteamAchievement.__hash__.
  split; f_equal; apply hash_keys_agree; by split.
Qed.

(** ** Achievements on their own *)

Section AchievementFacts.
Context `{Collaborators}.

(** A new achievement has no cache, so nothing is cached for it. *)
Lemma init_no_entry (linked_appid apiname displayname linked_userid : value)
    (name : string) :
  cache_entry
    (SteamAchievement.__init__ linked_appid apiname displayname linked_userid) name = None.
Proof. reflexivity. Qed.

(** C7.  Reading [is_unlocked] on an achievement without a user id raises
    the [ValueError]; by then the clock was read and nothing else happened:
    no request was sent and the achievement is as it was. *)
Theorem C7_is_unlocked_requires_user (s : state SteamAchievement.t) :
  SteamAchievement._userid (self s) = VNone →
  cache_entry (self s) "is_unlocked" = None →
  SteamAchievement.is_unlocked s =
    (Raise (ValueError "No Steam ID linked to this achievement!"), tick s) ∧
  calls (tick s) = calls s ∧ self (tick s) = self s.
Proof.
  intros Huser Hmiss. split; [|done].
  unfold SteamAchievement.is_unlocked.
  rewrite cached_property_miss by done.
  unfold mbind, M_bind, get_self. simpl. by rewrite Huser.
Qed.

(** The loop of [is_unlocked] over entries that all name other
    achievements. *)
Lemma is_unlocked_loop_no_match (id : value) (achievements : list value) :
  Forall (λ achievement, ∃ apiname,
            getattr achievement "apiname" = Ok apiname ∧ py_eq apiname id = false)
         achievements →
  SteamAchievement.is_unlocked_loop id achievements = Ok (VBool false).
Proof.
  induction 1 as [|achievement rest (apiname & Hname & Hne) _ IH]; [done|].
  simpl. rewrite Hname. simpl. by rewrite Hne.
Qed.

(** C10.  With a user id, and a player-achievements response none of whose
    entries has the [apiname] of this achievement, [is_unlocked] returns
    [False]. *)
Theorem C10_is_unlocked_not_found (s : state SteamAchievement.t)
    (response : gmap string value) (playerstats achievements : value)
    (entries : list value) :
  is_None (SteamAchievement._userid (self s)) = false →
  cache_entry (self s) "is_unlocked" = None →
  APIConnection_call "ISteamUserStats" "GetPlayerAchievements" "v1"
    [("steamid", SteamAchievement._userid (self s));
     ("appid", SteamAchievement._appid (self s)); ("l", VStr "English")] = Ok response →
  getattr (VResp response) "playerstats" = Ok playerstats →
  getattr playerstats "achievements" = Ok achievements →
  iter achievements = Ok entries →
  Forall (λ entry, ∃ apiname,
            getattr entry "apiname" = Ok apiname ∧
            py_eq apiname (SteamAchievement._id (self s)) = false) entries →
  (SteamAchievement.is_unlocked s).1 = Ok (VBool false).
Proof.
  intros Huser Hmiss Hcall Hstats Hachievements Hiter Hnone.
  unfold SteamAchievement.is_unlocked.
  rewrite cached_property_miss by done.
  unfold mbind at 1, M_bind at 1, get_self. simpl. rewrite Huser.
  unfold mbind at 1, M_bind at 1, APIConnection_call_. simpl. rewrite Hcall. simpl.
  unfold lift. fold (getattr (VResp response) "playerstats"). rewrite Hstats. simpl.
  rewrite Hachievements. simpl. rewrite Hiter. simpl.
  by rewrite is_unlocked_loop_no_match.
Qed.

End AchievementFacts.

(** Achievement [A], linked to nobody. *)
Lemma C7_is_unlocked_requires_user_witness :
  let s := Scripted.initially
             (SteamAchievement.__init__ (VInt 100) (VStr "A") (VStr "First") VNone) in
  SteamAchievement.is_unlocked (H := Scripted.game_A_B) s =
    (Raise (ValueError "No Steam ID linked to this achievement!"), tick s) ∧
  calls (tick s) = calls s ∧ self (tick s) = self s.
Proof. apply C7_is_unlocked_requires_user; reflexivity. Defined.

(** Achievement [C] of user 7, whose response lists [A] and [B] only. *)
Lemma C10_is_unlocked_not_found_witness :
  (SteamAchievement.is_unlocked (H := Scripted.game_A_B)
     (Scripted.initially
        (SteamAchievement.__init__ (VInt 100) (VStr "C") (VStr "Third") (VInt 7)))).1 =
  Ok (VBool false).
Proof.
  eapply (C10_is_unlocked_not_found (H := Scripted.game_A_B)) ;
    [reflexivity | reflexivity | reflexivity | reflexivity | reflexivity | reflexivity |].
  repeat constructor; eexists; split; reflexivity.
Defined.

(** ** The schema and the name of an application *)

Section SchemaFacts.
Context `{Collaborators}.

Lemma cache_entry_with_entry (a : SteamApp.t) (name : string) (v : SteamApp.pyobj)
    (t : float) :
  cache_entry (with_entry a name v t) name = Some (v, t).
Proof. unfold cache_entry, with_entry. simpl. apply lookup_insert_eq. Qed.

Lemma cache_entry_with_entry_ne (a : SteamApp.t) (name name' : string)
    (v : SteamApp.pyobj) (t : float) :
  name ≠ name' → cache_entry (with_entry a name v t) name' = cache_entry a name'.
Proof.
  intros Hne. unfold cache_entry, with_entry. simpl.
  rewrite lookup_insert_ne by done. by destruct (SteamApp._cache a).
Qed.

(** A read of [_schema] returns the schema the application sees. *)
Lemma schema_read (s : state SteamApp.t) (schema : SteamApp.pyobj) :
  schema_of (self s) = Ok schema →
  SteamApp._schema s = (Ok schema, after_schema schema s).
Proof.
  unfold schema_of, after_schema, schema_calls, SteamApp._schema.
  destruct (cache_entry (self s) "_schema") as [[v t]|] eqn:Hc.
  - intros [= ->]. rewrite (cached_property_hit _ _ _ _ _ Hc).
    unfold tick. by rewrite app_nil_r.
  - intros Hcall. rewrite cached_property_miss by done.
    unfold mbind, M_bind, get_self, APIConnection_call_, tick, schema_request. simpl.
    destruct (APIConnection_call _ _ _ _) as [response|e]; [|done].
    simpl in Hcall. by injection Hcall as <-.
Qed.

(** After it, the schema is cached, and is the same. *)
Lemma schema_of_after (s : state SteamApp.t) (schema : SteamApp.pyobj) :
  schema_of (self s) = Ok schema →
  schema_of (self (after_schema schema s)) = Ok schema.
Proof.
  unfold schema_of at 1. unfold after_schema. cbn [self].
  destruct (cache_entry (self s) "_schema") as [[v t]|] eqn:Hc.
  - intros [= ->]. unfold schema_of. by rewrite Hc.
  - intros _. unfold schema_of. by rewrite cache_entry_with_entry.
Qed.

Lemma schema_calls_after (s : state SteamApp.t) (schema : SteamApp.pyobj) :
  schema_calls (self (after_schema schema s)) = [].
Proof.
  unfold after_schema, schema_calls. cbn [self].
  destruct (cache_entry (self s) "_schema") as [[v t]|] eqn:Hc.
  - by rewrite Hc.
  - by rewrite cache_entry_with_entry.
Qed.

(** Where the name is not cached, it is the [gameName] of the schema, and
    [<Unknown>] when the schema has none. *)
Lemma name_computed (s : state SteamApp.t) (schema game : gmap string value) :
  cache_entry (self s) "name" = None →
  schema_of (self s) = Ok (SteamApp.Val (VResp schema)) →
  schema !! "game" = Some (VResp game) →
  (SteamApp.name s).1 = Ok (SteamApp.Val (default (VStr "<Unknown>") (game !! "gameName"))).
Proof.
  intros Hmiss Hschema Hgame. unfold SteamApp.name.
  rewrite cached_property_miss by done.
  unfold mbind at 1, M_bind at 1. rewrite (schema_read (tick s) _ Hschema).
  unfold mbind at 1, M_bind at 1, lift. simpl. rewrite Hgame.
  unfold mbind at 1, M_bind at 1. rewrite contains_key.
  destruct (game !! "gameName") as [gameName|] eqn:Hname; simpl; [|done].
  unfold mbind at 1, M_bind at 1.
  rewrite (schema_read _ _ (schema_of_after (tick s) _ Hschema)).
  unfold mbind, M_bind, lift. simpl. rewrite Hgame. simpl. by rewrite Hname.
Qed.

(** Where the name is cached, as the constructor leaves it when it is given
    one, the property returns it and the schema is not looked at. *)
Lemma name_cached (s : state SteamApp.t) (name : SteamApp.pyobj) (t : float) :
  cache_entry (self s) "name" = Some (name, t) →
  SteamApp.name s = (Ok name, tick s).
Proof. intros Hhit. unfold SteamApp.name. by apply cached_property_hit with t. Qed.

(** C9, amended.  For an application with no cached name (one constructed
    without a name), whose schema has a [game] section: the [name] property
    returns [<Unknown>] when the section has no [gameName], and the value of
    [gameName] when it has one. *)
Theorem C9_name_from_schema (s : state SteamApp.t) (schema game : gmap string value) :
  cache_entry (self s) "name" = None →
  schema_of (self s) = Ok (SteamApp.Val (VResp schema)) →
  schema !! "game" = Some (VResp game) →
  (game !! "gameName" = None →
   (SteamApp.name s).1 = Ok (SteamApp.Val (VStr "<Unknown>"))) ∧
  (∀ gameName, game !! "gameName" = Some gameName →
   (SteamApp.name s).1 = Ok (SteamApp.Val gameName)).
Proof.
  intros Hmiss Hschema Hgame.
  rewrite (name_computed _ _ _ Hmiss Hschema Hgame).
  split; [intros ->|intros gameName ->]; reflexivity.
Qed.

End SchemaFacts.

(** Application 100 without metadata, constructed without a name. *)
Lemma C9_name_from_schema_witness :
  let s := Scripted.initially (Scripted.app_of VNone) in
  (SteamApp.name (H := Scripted.hidden_app) s).1 = Ok (SteamApp.Val (VStr "<Unknown>")).
Proof.
  refine (proj1 (C9_name_from_schema (H := Scripted.hidden_app) _
                   Scripted.schema_hidden ∅ _ _ _) _); reflexivity.
Defined.

(** C9, as stated, fails: application 100 constructed with the name
    [Portal] has it cached, and [name] returns it although the schema has a
    [game] section without a [gameName]. *)
Lemma C9_name_counterexample :
  SteamApp.__init__ (H := Scripted.hidden_app) (VInt 100) (VStr "Portal") VNone
    (Scripted.initially ()) = (Ok Scripted.app_named, tick (Scripted.initially ())) ∧
  schema_of (H := Scripted.hidden_app) Scripted.app_named =
    Ok (SteamApp.Val (VResp Scripted.schema_hidden)) ∧
  Scripted.schema_hidden !! "game" = Some (VResp ∅) ∧
  (SteamApp.name (H := Scripted.hidden_app) (Scripted.initially Scripted.app_named)).1 =
    Ok (SteamApp.Val (VStr "Portal")) ∧
  (SteamApp.name (H := Scripted.hidden_app) (Scripted.initially Scripted.app_named)).1 ≠
    Ok (SteamApp.Val (VStr "<Unknown>")).
Proof.
  split; [reflexivity|]. split; [reflexivity|]. split; [reflexivity|].
  split; [reflexivity|]. vm_compute. discriminate.
Qed.

(** ** The store metadata *)

Section StoreFacts.
Context `{Collaborators}.

Lemma app_info_failed (s : state SteamApp.t) :
  cache_entry (self s) "app_info" = None →
  store_failed s →
  SteamApp.app_info s = (Ok (SteamApp.Val VNone), after_app_info s).
Proof.
  intros Hmiss (response & entry & success & Hcall & Hentry & Hsuccess & Hfalse).
  unfold SteamApp.app_info. rewrite cached_property_miss by done.
  unfold mbind at 1, M_bind at 1, get_self. simpl.
  unfold mbind at 1, M_bind at 1, StoreAPIConnection_call_. simpl. rewrite Hcall. simpl.
  unfold mbind at 1, M_bind at 1, lift. simpl. rewrite Hentry.
  unfold mbind at 1, M_bind at 1. rewrite Hsuccess, Hfalse. reflexivity.
Qed.

Lemma after_app_info_cached (s : state SteamApp.t) :
  cache_entry (self (after_app_info s)) "app_info" =
    Some (SteamApp.Val VNone, time_time (clock_reads s)).
Proof. apply cache_entry_with_entry. Qed.

(** An accessor on an application whose store data is unknown yet, and
    turns out to be missing. *)
Lemma app_info_field_failed (field : string) (s : state SteamApp.t) :
  cache_entry (self s) "app_info" = None →
  store_failed s →
  SteamApp.app_info_field field s = (Ok VNone, after_app_info s).
Proof.
  intros Hmiss Hfailed. unfold SteamApp.app_info_field, mbind, M_bind.
  by rewrite (app_info_failed _ Hmiss Hfailed).
Qed.

(** An accessor on an application whose store data is known to be
    missing. *)
Lemma app_info_field_absent (field : string) (s : state SteamApp.t) (t : float) :
  cache_entry (self s) "app_info" = Some (SteamApp.Val VNone, t) →
  SteamApp.app_info_field field s = (Ok VNone, tick s).
Proof.
  intros Hhit. unfold SteamApp.app_info_field, mbind, M_bind, SteamApp.app_info.
  by rewrite (cached_property_hit _ _ _ _ _ Hhit).
Qed.

(** Every derived accessor projects a field of [app_info]. *)
Lemma derived_accessors_fields :
  Forall (λ accessor, ∃ field, accessor = SteamApp.app_info_field field)
         SteamApp.derived_accessors.
Proof.
  unfold SteamApp.derived_accessors.
  repeat (constructor; [eexists; reflexivity|]). constructor.
Qed.

(** C3.  When the store answers [success] false for the application,
    [app_info] returns [None], having sent the one request; so does every
    derived accessor read in its place; and on an application whose
    [app_info] is cached as [None], every derived accessor returns [None]
    and only reads the clock: it sends nothing. *)
Theorem C3_store_metadata_absent (s : state SteamApp.t) :
  cache_entry (self s) "app_info" = None →
  store_failed s →
  SteamApp.app_info s = (Ok (SteamApp.Val VNone), after_app_info s) ∧
  calls (after_app_info s) = (calls s ++ [app_info_request (self s)])%list ∧
  Forall (λ accessor : M SteamApp.t value,
            accessor s = (Ok VNone, after_app_info s) ∧
            accessor (after_app_info s) = (Ok VNone, tick (after_app_info s)) ∧
            ∀ s' t, cache_entry (self s') "app_info" = Some (SteamApp.Val VNone, t) →
                    accessor s' = (Ok VNone, tick s') ∧ calls (tick s') = calls s')
         SteamApp.derived_accessors.
Proof.
  intros Hmiss Hfailed. split; [by apply app_info_failed|]. split; [done|].
  eapply Forall_impl; [apply derived_accessors_fields|].
  intros accessor [field ->].
  split; [by apply app_info_field_failed|].
  split; [eapply app_info_field_absent, after_app_info_cached|].
  intros s' t Hhit. split; [by eapply app_info_field_absent|done].
Qed.

End StoreFacts.

(** Application 100, which the store has no data of. *)
Lemma C3_store_metadata_absent_witness :
  let s := Scripted.initially (Scripted.app_of VNone) in
  SteamApp.app_info (H := Scripted.game_A_B) s =
    (Ok (SteamApp.Val VNone), after_app_info (H := Scripted.game_A_B) s) ∧
  SteamApp.type (H := Scripted.game_A_B) s =
    (Ok VNone, after_app_info (H := Scripted.game_A_B) s).
Proof.
  intros s.
  pose proof (C3_store_metadata_absent (H := Scripted.game_A_B) s) as C3.
  destruct C3 as (Hinfo & _ & Haccessors).
  - reflexivity.
  - exists Scripted.appdetails_failed, (Scripted.obj [("success", VBool false)]), (VBool false).
    repeat split; reflexivity.
  - split; [exact Hinfo|].
    apply Forall_cons in Haccessors as [(Htype & _) _]. exact Htype.
Defined.

(** ** The loops of the aggregation *)

Section LoopFacts.
Context `{Collaborators}.

Lemma getattr_inv (x : value) (attr : string) (v : value) :
  getattr x attr = Ok v → ∃ m, x = VResp m ∧ m !! attr = Some v.
Proof.
  destruct x as [| | | | | |m]; try done. simpl.
  destruct (m !! attr) as [v'|] eqn:Hm; [|done].
  intros [= ->]. eauto.
Qed.

Lemma set_unlock_percentage_same (a : SteamAchievement.t) :
  SteamAchievement.set_unlock_percentage (SteamAchievement.unlock_percentage a) a = a.
Proof. by destruct a. Qed.

(** The comprehension over well-formed entries returns the names of the
    achieved ones. *)
Lemma unlocked_names_run (entries : list value) :
  Forall stats_entry entries →
  ∃ names,
    SteamApp.unlocked_names entries = Ok names ∧
    ∀ x, existsb (py_eq x) names = true ↔ achieved_by_user entries x.
Proof.
  induction 1 as [|entry rest (name & achieved & Hname & Hachieved) _ (names & Hrun & IH)].
  - exists []. split; [done|]. intros x. split; [done|].
    intros (entry & ? & ? & Hin & _). by apply elem_of_nil in Hin.
  - simpl. rewrite Hachieved. simpl.
    destruct (py_eq achieved (VInt 0)) eqn:Hzero; simpl.
    + exists names. split; [done|]. intros x. rewrite IH. split.
      * intros (e & n & v & Hin & ?). exists e, n, v. split; [by apply elem_of_cons; right|done].
      * intros (e & n & v & Hin & Hn & Hv & Hnz & Heq).
        apply elem_of_cons in Hin as [->|Hin]; [congruence|].
        exists e, n, v. done.
    + rewrite Hname. simpl. rewrite Hrun. simpl.
      exists (name :: names). split; [done|]. intros x. simpl.
      rewrite orb_true_iff, IH. split.
      * intros [Heq|(e & n & v & Hin & ?)].
        -- exists entry, name, achieved. split; [by apply elem_of_cons; left|done].
        -- exists e, n, v. split; [by apply elem_of_cons; right|done].
      * intros (e & n & v & Hin & Hn & Hv & Hnz & Heq).
        apply elem_of_cons in Hin as [->|Hin].
        -- left. congruence.
        -- right. exists e, n, v. done.
Qed.

(** The loop over well-formed global entries leaves on the achievement the
    percentage of the last entry with its name, if there is one. *)
Lemma percentage_loop_run (achievement name : value) (globals : list value)
    (achievement_obj : SteamAchievement.t) :
  getattr achievement "name" = Ok name →
  Forall percentage_entry globals →
  ∃ percentage,
    SteamApp.percentage_loop achievement globals achievement_obj =
      Ok (SteamAchievement.set_unlock_percentage percentage achievement_obj) ∧
    ((Forall (λ g, names g name false) globals ∧
      percentage = SteamAchievement.unlock_percentage achievement_obj) ∨
     (∃ (before : list value) (g : value) (after : list value),
        globals = (before ++ g :: after)%list ∧ names g name true ∧
        getattr g "percent" = Ok percentage ∧
        Forall (λ g', names g' name false) after)).
Proof.
  intros Hname Hglobals. revert achievement_obj.
  induction Hglobals as [|g rest (gname & percent & Hgname & Hpercent) _ IH];
    intros achievement_obj.
  - exists (SteamAchievement.unlock_percentage achievement_obj). simpl.
    rewrite set_unlock_percentage_same. split; [done|]. left. by split.
  - simpl. rewrite Hgname. simpl. rewrite Hname. simpl.
    destruct (py_eq gname name) eqn:Heq.
    + rewrite Hpercent. simpl.
      destruct (IH (SteamAchievement.set_unlock_percentage percent achievement_obj))
        as (percentage & Hrun & Hcases).
      exists percentage. split; [exact Hrun|]. right.
      destruct Hcases as [[Hnone ->]|(before & g' & after & -> & Hg' & Hp & Hafter)].
      * exists [], g, rest. repeat split; [by exists gname|done|done].
      * exists (g :: before), g', after. done.
    + destruct (IH achievement_obj) as (percentage & Hrun & Hcases).
      exists percentage. split; [exact Hrun|].
      destruct Hcases as [[Hnone ->]|(before & g' & after & -> & Hg' & Hp & Hafter)].
      * left. split; [|done]. constructor; [by exists gname|done].
      * right. exists (g :: before), g', after. done.
Qed.

(** [store] on an object that has a cache. *)
Lemma store_run {Self Obj V} `{Cached Obj V} (obj : Obj) (property_name : string)
    (data : V) (c : cache V) (s : state Self) :
  get_cache obj = Some c →
  store obj property_name data s =
    (Ok (set_cache (Some (<[property_name := (data, time_time (clock_reads s))]> c)) obj),
     tick s).
Proof. intros Hc. unfold store, mbind, M_bind, time_time_. simpl. by rewrite Hc. Qed.

(** One turn of the loop over the schema. *)
Lemma schema_loop_step (appid userid global_percentages d name displayName hidden : value)
    (globals rest : list value) (achievements_list : list SteamAchievement.t)
    (achievement_obj : SteamAchievement.t) (s : state SteamApp.t) :
  getattr d "name" = Ok name →
  getattr d "displayName" = Ok displayName →
  getattr d "hidden" = Ok hidden →
  global_entries global_percentages = Ok globals →
  SteamApp.percentage_loop d globals
    (set_cache
       (Some {[ "is_hidden" := (VBool (negb (py_eq hidden (VInt 0))), time_time (clock_reads s)) ]})
       (SteamAchievement.__init__ appid name displayName userid)) = Ok achievement_obj →
  SteamApp.schema_loop appid userid global_percentages (d :: rest) achievements_list s =
  SteamApp.schema_loop appid userid global_percentages rest
    (achievements_list ++ [achievement_obj])
    (State (self s) (calls s) (S (clock_reads s)) (S (constructed s))).
Proof.
  intros Hname Hdisplay Hhidden Hentries Hloop.
  unfold global_entries in Hentries. rewrite <- insert_empty in Hloop.
  simpl. unfold mbind at 1, M_bind at 1, lift. rewrite Hname.
  unfold mbind at 1, M_bind at 1. rewrite Hdisplay.
  unfold mbind at 1, M_bind at 1, SteamAchievement.new.
  unfold mbind at 1, M_bind at 1. rewrite Hhidden.
  unfold mbind at 1, M_bind at 1.
  destruct (py_eq hidden (VInt 0));
    (rewrite (store_run _ _ _ ∅) by reflexivity);
    unfold mbind at 1, M_bind at 1; rewrite Hentries;
    unfold mbind at 1, M_bind at 1; simpl in Hloop |- *; by rewrite Hloop.
Qed.

(** The loop over well-formed definitions builds one achievement for each,
    in order, after those it was given; it reads the clock and constructs,
    and does nothing else. *)
Lemma schema_loop_run (appid userid global_percentages : value)
    (globals achievements : list value) :
  global_entries global_percentages = Ok globals →
  Forall percentage_entry globals →
  Forall schema_entry achievements →
  ∀ (achievements_list : list SteamAchievement.t) (s : state SteamApp.t),
  ∃ built s',
    SteamApp.schema_loop appid userid global_percentages achievements achievements_list s =
      (Ok (achievements_list ++ built)%list, s') ∧
    self s' = self s ∧ calls s' = calls s ∧
    constructed s' = (constructed s + length achievements)%nat ∧
    Forall2 (built_from appid userid globals) achievements built.
Proof.
  intros Hentries Hglobals Hachievements.
  induction Hachievements
    as [|d rest (name & displayName & hidden & Hname & Hdisplay & Hhidden) _ IH];
    intros achievements_list s.
  - exists [], s. rewrite app_nil_r. repeat split; [simpl; lia|constructor].
  - destruct (percentage_loop_run d name globals
                (set_cache
                   (Some {[ "is_hidden" := (VBool (negb (py_eq hidden (VInt 0))),
                                            time_time (clock_reads s)) ]})
                   (SteamAchievement.__init__ appid name displayName userid))
                Hname Hglobals)
      as (percentage & Hloop & Hcases).
    rewrite (schema_loop_step _ _ _ _ _ _ _ _ _ _ _ _ Hname Hdisplay Hhidden Hentries Hloop).
    destruct (IH (achievements_list ++ [SteamAchievement.set_unlock_percentage percentage
                     (set_cache
                        (Some {[ "is_hidden" := (VBool (negb (py_eq hidden (VInt 0))),
                                                 time_time (clock_reads s)) ]})
                        (SteamAchievement.__init__ appid name displayName userid))])%list
                 (State (self s) (calls s) (S (clock_reads s)) (S (constructed s))))
      as (built & s' & Hrun & Hself & Hcalls & Hconstructed & Hbuilt).
    eexists (_ :: built), s'. rewrite Hrun, <- app_assoc.
    split; [reflexivity|]. split; [exact Hself|]. split; [exact Hcalls|].
    split; [rewrite Hconstructed; simpl; lia|].
    constructor; [|exact Hbuilt].
    repeat split; simpl; try done.
    by exists hidden, (time_time (clock_reads s)).
Qed.

(** The loop over the unlocks stores [is_achieved] on every achievement,
    saying whether its API name is in [unlocks]. *)
Lemma unlocks_loop_run (unlocks : value) (achievements_list : list SteamAchievement.t) :
  searchable unlocks →
  Forall (λ a, is_Some (SteamAchievement._cache a)) achievements_list →
  ∀ s : state SteamApp.t,
  ∃ marked s',
    SteamApp.unlocks_loop unlocks achievements_list s = (Ok marked, s') ∧
    self s' = self s ∧ calls s' = calls s ∧ constructed s' = constructed s ∧
    Forall2 (marked_from unlocks) achievements_list marked.
Proof.
  intros Hsearch Hcaches.
  induction Hcaches as [|a rest [c Hc] _ IH]; intros s.
  - exists [], s. repeat split. constructor.
  - destruct (Hsearch (SteamAchievement.apiname a)) as [unlocked Hunlocked].
    pose (now := time_time (clock_reads s)).
    pose (a' := set_cache (Some (<["is_achieved" := (VBool unlocked, now)]> c)) a).
    destruct (IH (tick s)) as (marked & s' & Hrun & Hself & Hcalls & Hconstructed & Hmarked).
    exists (a' :: marked), s'.
    split; [|split; [exact Hself|split; [exact Hcalls|split; [exact Hconstructed|]]]].
    + simpl. unfold mbind at 1, M_bind at 1, lift. rewrite Hunlocked.
      unfold mbind at 1, M_bind at 1.
      assert ((if unlocked
               then store (Self := SteamApp.t) a "is_achieved" (VBool true)
               else store a "is_achieved" (VBool false)) s = (Ok a', tick s)) as ->.
      { destruct unlocked; by rewrite (store_run _ _ _ c). }
      unfold mbind at 1, M_bind at 1. by rewrite Hrun.
    + constructor; [|exact Hmarked]. by exists unlocked, now, c.
Qed.

End LoopFacts.

(** ** The aggregation *)

Section AggregationFacts.
Context `{Collaborators}.

Lemma Forall2_compose {A B C} (P : A → B → Prop) (Q : B → C → Prop) (R : A → C → Prop) :
  (∀ a b c, P a b → Q b c → R a c) →
  ∀ l1 l2 l3, Forall2 P l1 l2 → Forall2 Q l2 l3 → Forall2 R l1 l3.
Proof.
  intros HR l1 l2 l3 HP. revert l3.
  induction HP as [|a b l1 l2 Hab _ IH]; intros l3 HQ.
  - inversion HQ. constructor.
  - inversion HQ as [|? c ? l3' Hbc HQ']; subst. constructor; eauto.
Qed.

(** Lines 59-73, without a user: nothing is requested. *)
Lemma user_unlocks_unbound (s : state SteamApp.t) :
  is_None (SteamApp._userid (self s)) = true →
  SteamApp.user_unlocks s = (Ok (VNone, VNone), s).
Proof.
  intros Hnone. unfold SteamApp.user_unlocks, mbind, M_bind, get_self.
  by rewrite Hnone.
Qed.

(** Lines 59-73, with a user whose statistics list achievements: [unlocks]
    is the list of the names of the achieved ones. *)
Lemma user_unlocks_listed (s : state SteamApp.t) (user_stats : gmap string value)
    (entries : list value) :
  is_None (SteamApp._userid (self s)) = false →
  APIConnection_call "ISteamUserStats" "GetUserStatsForGame" "v2"
    [("appid", SteamApp._id (self s)); ("steamid", SteamApp._userid (self s))] =
    Ok user_stats →
  user_entries (VResp user_stats) = Ok entries →
  Forall stats_entry entries →
  ∃ names,
    SteamApp.user_unlocks s =
      (Ok (SteamApp._userid (self s), VList names), after_user_stats s) ∧
    ∀ x, existsb (py_eq x) names = true ↔ achieved_by_user entries x.
Proof.
  intros Hbound Hcall Hentries Hwf.
  destruct (unlocked_names_run entries Hwf) as (names & Hnames & Hspec).
  exists names. split; [|exact Hspec].
  unfold user_entries in Hentries.
  destruct (getattr (VResp user_stats) "playerstats") as [playerstats|] eqn:Hstats; [|done].
  simpl in Hentries.
  destruct (getattr playerstats "achievements") as [l|] eqn:Hl; [|done].
  simpl in Hentries.
  destruct (getattr_inv _ _ _ Hl) as (m & -> & Hm).
  destruct (getattr_inv _ _ _ Hstats) as (? & [= <-] & Hps).
  unfold SteamApp.user_unlocks, mbind, M_bind, get_self, APIConnection_call_, lift.
  simpl. rewrite Hbound. simpl. rewrite Hcall. simpl. rewrite Hps.
  rewrite (contains_key_present _ _ _ Hm). simpl. rewrite Hm. simpl.
  rewrite Hentries. simpl. by rewrite Hnames.
Qed.

(** Lines 59-73, with a user whose statistics have no [achievements]:
    [unlocks] stays the response. *)
Lemma user_unlocks_unlisted (s : state SteamApp.t) (user_stats playerstats : gmap string value) :
  is_None (SteamApp._userid (self s)) = false →
  APIConnection_call "ISteamUserStats" "GetUserStatsForGame" "v2"
    [("appid", SteamApp._id (self s)); ("steamid", SteamApp._userid (self s))] =
    Ok user_stats →
  user_stats !! "playerstats" = Some (VResp playerstats) →
  playerstats !! "achievements" = None →
  SteamApp.user_unlocks s =
    (Ok (SteamApp._userid (self s), VResp user_stats), after_user_stats s).
Proof.
  intros Hbound Hcall Hstats Hnone.
  unfold SteamApp.user_unlocks, mbind, M_bind, get_self, APIConnection_call_, lift.
  simpl. rewrite Hbound. simpl. rewrite Hcall. simpl. rewrite Hstats.
  by rewrite (contains_key_absent _ _ Hnone).
Qed.

Lemma searchable_list (l : list value) : searchable (VList l).
Proof. intros x. by eexists. Qed.

Lemma searchable_response (m : gmap string value) : searchable (VResp m).
Proof. intros x. by eexists. Qed.

(** Lines 59-73, whenever the statistics are readable: they return, and
    construct nothing. *)
Lemma user_unlocks_run (s : state SteamApp.t) :
  user_stats_readable (self s) →
  ∃ userid unlocks s',
    SteamApp.user_unlocks s = (Ok (userid, unlocks), s') ∧
    self s' = self s ∧ constructed s' = constructed s ∧
    (is_None unlocks = true ∨ searchable unlocks).
Proof.
  intros [Hnone|(user_stats & Hcall & Hshape)].
  - exists VNone, VNone, s. rewrite (user_unlocks_unbound _ Hnone). repeat split. by left.
  - destruct (is_None (SteamApp._userid (self s))) eqn:Hbound.
    { exists VNone, VNone, s. rewrite (user_unlocks_unbound _ Hbound). repeat split. by left. }
    destruct Hshape as [(entries & Hentries & Hwf)|(playerstats & Hstats & Hnone)].
    + destruct (user_unlocks_listed _ _ _ Hbound Hcall Hentries Hwf) as (names & -> & _).
      eexists _, _, _. repeat split. right. apply searchable_list.
    + rewrite (user_unlocks_unlisted _ _ _ Hbound Hcall Hstats Hnone).
      eexists _, _, _. repeat split. right. apply searchable_response.
Qed.

(** Lines 74-95 on a schema whose [game] section has no
    [availableGameStats]: the empty list, after one read of the schema. *)
Lemma assemble_hidden (global_percentages userid unlocks : value) (s : state SteamApp.t)
    (schema : SteamApp.pyobj) (game : gmap string value) :
  schema_of (self s) = Ok schema →
  SteamApp.obj_getattr schema "game" = Ok (VResp game) →
  game !! "availableGameStats" = None →
  SteamApp.assemble global_percentages userid unlocks s =
    (Ok (SteamApp.Achievements []), after_schema schema s).
Proof.
  intros Hschema Hgame Hnone. unfold SteamApp.assemble.
  unfold mbind at 1, M_bind at 1, get_self.
  unfold mbind at 1, M_bind at 1. rewrite (schema_read _ _ Hschema).
  unfold mbind at 1, M_bind at 1, lift. rewrite Hgame.
  unfold mbind at 1, M_bind at 1. by rewrite (contains_key_absent _ _ Hnone).
Qed.

Lemma built_has_cache (appid userid : value) (globals : list value) (d : value)
    (a : SteamAchievement.t) :
  built_from appid userid globals d a → is_Some (SteamAchievement._cache a).
Proof. intros (_ & _ & _ & _ & _ & hidden & t & _ & ->). eauto. Qed.

Lemma aggregated_unmarked (appid userid : value) (globals : list value) (unlocks d : value)
    (a : SteamAchievement.t) :
  is_None unlocks = true →
  built_from appid userid globals d a →
  aggregated appid userid globals unlocks d a.
Proof.
  intros Hnone (Hname & Hdisplay & Happ & Huser & Hpercent & hidden & t & Hhidden & Hcache).
  repeat split; try done.
  - exists hidden. split; [done|].
    unfold is_hidden_stored, cache_entry. simpl. rewrite Hcache. simpl.
    by rewrite lookup_singleton_eq.
  - rewrite Hnone. unfold is_achieved, cache_entry. simpl. rewrite Hcache. simpl.
    by rewrite lookup_singleton_ne.
Qed.

Lemma aggregated_marked (appid userid : value) (globals : list value) (unlocks d : value)
    (a a' : SteamAchievement.t) :
  is_None unlocks = false →
  built_from appid userid globals d a →
  marked_from unlocks a a' →
  aggregated appid userid globals unlocks d a'.
Proof.
  intros Hsome (Hname & Hdisplay & Happ & Huser & Hpercent & hidden & t & Hhidden & Hcache)
         (unlocked & t' & c & Hunlocked & Hc & ->).
  rewrite Hcache in Hc. injection Hc as <-.
  repeat split; try done.
  - exists hidden. split; [done|].
    unfold is_hidden_stored, cache_entry. simpl.
    rewrite lookup_insert_ne by done. by rewrite lookup_singleton_eq.
  - rewrite Hsome. unfold SteamAchievement.apiname in Hunlocked. simpl.
    rewrite Hunlocked. unfold is_achieved, cache_entry. simpl.
    by rewrite lookup_insert_eq.
Qed.

(** Lines 74-95 on a schema with well-formed achievements: one achievement
    for each, in the order of the schema; the schema is requested unless it
    was cached, and nothing else is. *)
Lemma assemble_run (global_percentages userid unlocks : value) (s : state SteamApp.t)
    (schema : SteamApp.pyobj) (definitions globals : list value) :
  schema_of (self s) = Ok schema →
  schema_definitions schema = Ok definitions →
  Forall schema_entry definitions →
  global_entries global_percentages = Ok globals →
  Forall percentage_entry globals →
  is_None unlocks = true ∨ searchable unlocks →
  ∃ l s',
    SteamApp.assemble global_percentages userid unlocks s = (Ok (SteamApp.Achievements l), s') ∧
    calls s' = (calls s ++ schema_calls (self s))%list ∧
    constructed s' = (constructed s + length definitions)%nat ∧
    Forall2 (aggregated (SteamApp._id (self s)) userid globals unlocks) definitions l.
Proof.
  intros Hschema Hdefinitions Hwf Hentries Hglobals Hunlocks.
  pose proof Hdefinitions as Hshape. unfold schema_definitions in Hshape.
  destruct (SteamApp.obj_getattr schema "game") as [game|] eqn:Hgame; [|done].
  simpl in Hshape.
  destruct (getattr game "availableGameStats") as [stats|] eqn:Hstats; [|done].
  destruct (getattr_inv _ _ _ Hstats) as (m & -> & Hm). clear Hshape.
  set (s1 := after_schema schema s).
  set (s2 := after_schema schema s1).
  destruct (schema_loop_run (SteamApp._id (self s)) userid global_percentages globals
              definitions Hentries Hglobals Hwf [] s2)
    as (built & s3 & Hloop & Hself3 & Hcalls3 & Hconstructed3 & Hbuilt).
  assert (calls s2 = (calls s ++ schema_calls (self s))%list) as Hcalls2.
  { unfold s2, after_schema at 1. cbn [calls]. unfold s1.
    rewrite schema_calls_after, app_nil_r. reflexivity. }
  assert (SteamApp.assemble global_percentages userid unlocks s =
          ((if negb (is_None unlocks) then SteamApp.unlocks_loop unlocks built
            else mret built) ≫= λ l, mret (SteamApp.Achievements l)) s3) as ->.
  { unfold SteamApp.assemble.
    unfold mbind at 1, M_bind at 1, get_self.
    unfold mbind at 1, M_bind at 1. rewrite (schema_read _ _ Hschema).
    unfold mbind at 1, M_bind at 1, lift. rewrite Hgame.
    unfold mbind at 1, M_bind at 1. rewrite (contains_key_present _ _ _ Hm).
    change (negb true) with false. cbv beta iota.
    unfold mbind at 1, M_bind at 1.
    rewrite (schema_read _ _ (schema_of_after _ _ Hschema)).
    unfold mbind at 1, M_bind at 1.
    change (SteamApp.obj_getattr schema "game" ≫= _) with (schema_definitions schema).
    rewrite Hdefinitions.
    unfold mbind at 1, M_bind at 1. fold s1. fold s2. cbn [self]. rewrite Hloop.
    reflexivity. }
  destruct (is_None unlocks) eqn:Hnone.
  - exists built, s3. split; [reflexivity|]. split; [congruence|].
    split; [exact Hconstructed3|].
    eapply Forall2_impl; [exact Hbuilt|]. intros d a. by apply aggregated_unmarked.
  - destruct Hunlocks as [|Hsearch]; [done|].
    destruct (unlocks_loop_run unlocks built Hsearch) with (s := s3)
      as (marked & s4 & Hmark & Hself4 & Hcalls4 & Hconstructed4 & Hmarked).
    { clear -Hbuilt. induction Hbuilt as [|d a ? ? Hda _ IH]; constructor; [|exact IH].
      by eapply built_has_cache. }
    exists marked, s4. unfold mbind, M_bind. change (negb false) with true.
    cbv beta iota. rewrite Hmark.
    split; [reflexivity|]. split; [congruence|].
    split; [rewrite Hconstructed4; exact Hconstructed3|].
    eapply Forall2_compose; [|exact Hbuilt|exact Hmarked].
    intros d a a'. by apply aggregated_marked.
Qed.

(** The first read of [achievements]: the percentages are requested, then
    lines 59-73 and 74-95 run, and what they return is cached. *)
Lemma achievements_computed (s : state SteamApp.t) (percentages : gmap string value) :
  cache_entry (self s) "achievements" = None →
  APIConnection_call "ISteamUserStats" "GetGlobalAchievementPercentagesForApp" "v0002"
    [("gameid", SteamApp._id (self s))] = Ok percentages →
  SteamApp.achievements s =
    match (bound ← SteamApp.user_unlocks;
           let '(userid, unlocks) := bound in
           SteamApp.assemble (VResp percentages) userid unlocks) (after_percentages s) with
    | (Ok v, s') =>
        (Ok v, State (with_entry (self s') "achievements" v (time_time (clock_reads s)))
                     (calls s') (clock_reads s') (constructed s'))
    | (Raise e, s') => (Raise e, s')
    end.
Proof.
  intros Hmiss Hcall. unfold SteamApp.achievements.
  rewrite cached_property_miss by done.
  unfold mbind at 1, M_bind at 1, get_self. cbn [fst snd].
  unfold mbind at 1, M_bind at 1, APIConnection_call_. cbn [self tick].
  rewrite Hcall. reflexivity.
Qed.

Lemma achievements_run (s s2 : state SteamApp.t) (percentages : gmap string value)
    (userid unlocks : value) (schema : SteamApp.pyobj) (definitions globals : list value) :
  cache_entry (self s) "achievements" = None →
  APIConnection_call "ISteamUserStats" "GetGlobalAchievementPercentagesForApp" "v0002"
    [("gameid", SteamApp._id (self s))] = Ok percentages →
  SteamApp.user_unlocks (after_percentages s) = (Ok (userid, unlocks), s2) →
  self s2 = self s →
  is_None unlocks = true ∨ searchable unlocks →
  schema_of (self s) = Ok schema →
  schema_definitions schema = Ok definitions →
  Forall schema_entry definitions →
  global_entries (VResp percentages) = Ok globals →
  Forall percentage_entry globals →
  ∃ l s',
    SteamApp.achievements s = (Ok (SteamApp.Achievements l), s') ∧
    calls s' = (calls s2 ++ schema_calls (self s))%list ∧
    constructed s' = (constructed s2 + length definitions)%nat ∧
    Forall2 (aggregated (SteamApp._id (self s)) userid globals unlocks) definitions l.
Proof.
  intros Hmiss Hcall Huser Hself Hunlocks Hschema Hdefinitions Hwf Hentries Hglobals.
  rewrite <- Hself in Hschema.
  destruct (assemble_run (VResp percentages) userid unlocks s2 schema definitions globals
              Hschema Hdefinitions Hwf Hentries Hglobals Hunlocks)
    as (l & s3 & Hrun & Hcalls & Hconstructed & Hl).
  rewrite Hself in Hcalls, Hl.
  exists l. eexists.
  rewrite (achievements_computed _ _ Hmiss Hcall).
  unfold mbind, M_bind. rewrite Huser, Hrun. split; [reflexivity|]. by cbn [calls constructed].
Qed.

(** C2.  When the schema has a [game] section without [availableGameStats],
    the first read of [achievements] returns the empty list, whatever the
    percentages are and for any readable statistics of the user, and no
    [SteamAchievement] is constructed on the way. *)
Theorem C2_hidden_app_has_no_achievements (s : state SteamApp.t)
    (percentages game : gmap string value) (schema : SteamApp.pyobj) :
  cache_entry (self s) "achievements" = None →
  APIConnection_call "ISteamUserStats" "GetGlobalAchievementPercentagesForApp" "v0002"
    [("gameid", SteamApp._id (self s))] = Ok percentages →
  user_stats_readable (self s) →
  schema_of (self s) = Ok schema →
  SteamApp.obj_getattr schema "game" = Ok (VResp game) →
  game !! "availableGameStats" = None →
  ∃ s', SteamApp.achievements s = (Ok (SteamApp.Achievements []), s') ∧
        constructed s' = constructed s.
Proof.
  intros Hmiss Hcall Huser Hschema Hgame Hnone.
  destruct (user_unlocks_run (after_percentages s) Huser)
    as (userid & unlocks & s2 & Hrun & Hself & Hconstructed & _).
  rewrite (achievements_computed _ _ Hmiss Hcall).
  unfold mbind, M_bind. rewrite Hrun.
  rewrite (assemble_hidden _ _ _ s2 schema game); [|by rewrite Hself|done|done].
  eexists. split; [reflexivity|]. cbn [constructed after_schema]. exact Hconstructed.
Qed.

(** C8.  For an application without a user, whose global percentages and
    schema are well formed, the first read of [achievements] returns one
    achievement for each of the schema; it requested the percentages and
    (unless cached) the schema, and not the statistics of a user; and no
    achievement has an [is_achieved] entry in its cache. *)
Theorem C8_no_user_no_is_achieved (s : state SteamApp.t) (percentages : gmap string value)
    (schema : SteamApp.pyobj) (definitions globals : list value) :
  cache_entry (self s) "achievements" = None →
  SteamApp._userid (self s) = VNone →
  APIConnection_call "ISteamUserStats" "GetGlobalAchievementPercentagesForApp" "v0002"
    [("gameid", SteamApp._id (self s))] = Ok percentages →
  schema_of (self s) = Ok schema →
  schema_definitions schema = Ok definitions →
  Forall schema_entry definitions →
  global_entries (VResp percentages) = Ok globals →
  Forall percentage_entry globals →
  ∃ l s',
    SteamApp.achievements s = (Ok (SteamApp.Achievements l), s') ∧
    calls s' = (calls s ++ percentages_request (self s) :: schema_calls (self s))%list ∧
    (user_stats_request (self s) ∉ percentages_request (self s) :: schema_calls (self s)) ∧
    length l = length definitions ∧
    Forall (λ a, is_achieved a = None) l.
Proof.
  intros Hmiss Hnone Hcall Hschema Hdefinitions Hwf Hentries Hglobals.
  destruct (achievements_run s (after_percentages s) percentages VNone VNone schema
              definitions globals)
    as (l & s' & Hrun & Hcalls & _ & Hl); try done.
  { apply user_unlocks_unbound. cbn [self after_percentages]. by rewrite Hnone. }
  { by left. }
  exists l, s'. split; [exact Hrun|]. split.
  { rewrite Hcalls. cbn [calls after_percentages]. by rewrite <- app_assoc. }
  split.
  { unfold schema_calls, user_stats_request, percentages_request, schema_request.
    destruct (cache_entry (self s) "_schema");
      repeat (rewrite not_elem_of_cons; split; [discriminate|]); apply not_elem_of_nil. }
  split; [symmetry; by eapply Forall2_length|].
  clear -Hl. induction Hl as [|d a ? ? Hagg _ IH]; constructor; [|exact IH].
  apply Hagg.
Qed.

(** C1.  For an application with a user, whose schema, global percentages
    and user statistics are well formed, the first read of [achievements]
    returns one achievement for each definition of the schema, in order and
    under its API name, such that: [unlock_percentage] is the [percent] of
    the (last) global entry of that name, and 0.0 when there is none; and
    [is_achieved] is stored, true exactly when an entry of the user with
    that name has [achieved] other than 0. *)
Theorem C1_achievements_merge (s : state SteamApp.t)
    (percentages user_stats : gmap string value) (schema : SteamApp.pyobj)
    (definitions globals entries : list value) :
  cache_entry (self s) "achievements" = None →
  is_None (SteamApp._userid (self s)) = false →
  APIConnection_call "ISteamUserStats" "GetGlobalAchievementPercentagesForApp" "v0002"
    [("gameid", SteamApp._id (self s))] = Ok percentages →
  APIConnection_call "ISteamUserStats" "GetUserStatsForGame" "v2"
    [("appid", SteamApp._id (self s)); ("steamid", SteamApp._userid (self s))] =
    Ok user_stats →
  schema_of (self s) = Ok schema →
  schema_definitions schema = Ok definitions →
  global_entries (VResp percentages) = Ok globals →
  user_entries (VResp user_stats) = Ok entries →
  Forall schema_entry definitions →
  Forall percentage_entry globals →
  Forall stats_entry entries →
  ∃ l, (SteamApp.achievements s).1 = Ok (SteamApp.Achievements l) ∧
       Forall2 (merged globals entries) definitions l.
Proof.
  intros Hmiss Hbound Hpercentages Hstats Hschema Hdefinitions Hglobals Hentries
         Hwf Hwfg Hwfe.
  destruct (user_unlocks_listed (after_percentages s) user_stats entries)
    as (names & Huser & Hnames); try done.
  destruct (achievements_run s _ percentages _ _ schema definitions globals
              Hmiss Hpercentages Huser)
    as (l & s' & Hrun & _ & _ & Hl); try done.
  { right. apply searchable_list. }
  exists l. rewrite Hrun. split; [reflexivity|].
  eapply Forall2_impl; [exact Hl|].
  intros d a (Hname & _ & _ & _ & Hpercent & _ & Hachieved).
  split; [exact Hname|]. split; [exact Hpercent|].
  exists (existsb (py_eq (SteamAchievement._id a)) names).
  split; [exact Hachieved|apply Hnames].
Qed.

(** What the code does when the statistics of the user have no
    [achievements]: [unlocks] is the response itself, and [is_achieved] says
    whether the API name of the achievement is one of its field names. *)
Lemma achievements_unlisted (s : state SteamApp.t)
    (percentages user_stats playerstats : gmap string value) (schema : SteamApp.pyobj)
    (definitions globals : list value) :
  cache_entry (self s) "achievements" = None →
  is_None (SteamApp._userid (self s)) = false →
  APIConnection_call "ISteamUserStats" "GetGlobalAchievementPercentagesForApp" "v0002"
    [("gameid", SteamApp._id (self s))] = Ok percentages →
  APIConnection_call "ISteamUserStats" "GetUserStatsForGame" "v2"
    [("appid", SteamApp._id (self s)); ("steamid", SteamApp._userid (self s))] =
    Ok user_stats →
  user_stats !! "playerstats" = Some (VResp playerstats) →
  playerstats !! "achievements" = None →
  schema_of (self s) = Ok schema →
  schema_definitions schema = Ok definitions →
  global_entries (VResp percentages) = Ok globals →
  Forall schema_entry definitions →
  Forall percentage_entry globals →
  ∃ l, (SteamApp.achievements s).1 = Ok (SteamApp.Achievements l) ∧
       Forall2 (λ d a,
                  getattr d "name" = Ok (SteamAchievement._id a) ∧
                  is_achieved a =
                    Some (VBool (existsb (λ k, py_eq (SteamAchievement._id a) (VStr k))
                                         (keys user_stats))))
               definitions l.
Proof.
  intros Hmiss Hbound Hpercentages Hstats Hplayerstats Hnone Hschema Hdefinitions Hglobals
         Hwf Hwfg.
  pose proof (user_unlocks_unlisted (after_percentages s) user_stats playerstats
                Hbound Hstats Hplayerstats Hnone) as Huser.
  destruct (achievements_run s _ percentages _ _ schema definitions globals
              Hmiss Hpercentages Huser)
    as (l & s' & Hrun & _ & _ & Hl); try done.
  { right. apply searchable_response. }
  exists l. rewrite Hrun. split; [reflexivity|].
  eapply Forall2_impl; [exact Hl|].
  intros d a (Hname & _ & _ & _ & _ & _ & Hachieved). by split.
Qed.

End AggregationFacts.

(** ** The aggregation at work *)

(** The game with [A] and [B], the percentages [{A: 10.0, B: 20.0}], and user
    7 who achieved [A]. *)
Lemma C1_achievements_merge_witness :
  ∃ l, (SteamApp.achievements (H := Scripted.game_A_B)
          (Scripted.initially (Scripted.app_of (VInt 7)))).1 = Ok (SteamApp.Achievements l) ∧
       Forall2 (merged (H := Scripted.game_A_B) Scripted.globals_A_B Scripted.entries_A)
               Scripted.definitions_A_B l.
Proof.
  apply (C1_achievements_merge (H := Scripted.game_A_B)
           (Scripted.initially (Scripted.app_of (VInt 7)))
           Scripted.percentages_A_B Scripted.user_stats_A
           (SteamApp.Val (VResp Scripted.schema_A_B)));
    try reflexivity; well_formed.
Defined.

(** The same, run: [A] has 10.0 and is achieved, [B] has 20.0 and is not. *)
Example achievements_A_B :
  (SteamApp.achievements (H := Scripted.game_A_B)
     (Scripted.initially (Scripted.app_of (VInt 7)))).1 =
  Ok (SteamApp.Achievements [Scripted.achievement_A; Scripted.achievement_B]).
Proof. vm_compute. reflexivity. Qed.

(** Application 100 without metadata, for user 7. *)
Lemma C2_hidden_app_has_no_achievements_witness :
  let s := Scripted.initially (Scripted.app_of (VInt 7)) in
  ∃ s', SteamApp.achievements (H := Scripted.hidden_app) s =
          (Ok (SteamApp.Achievements []), s') ∧
        constructed s' = constructed s.
Proof.
  apply (C2_hidden_app_has_no_achievements (H := Scripted.hidden_app) _
           Scripted.percentages_A_B ∅ (SteamApp.Val (VResp Scripted.schema_hidden)));
    try reflexivity.
  right. exists Scripted.user_stats_A. split; [reflexivity|]. left.
  eexists. split; [reflexivity|]. well_formed.
Defined.

(** The game with [A] and [B], for nobody. *)
Lemma C8_no_user_no_is_achieved_witness :
  let s := Scripted.initially (Scripted.app_of VNone) in
  ∃ l s',
    SteamApp.achievements (H := Scripted.game_A_B) s = (Ok (SteamApp.Achievements l), s') ∧
    calls s' = (calls s ++ percentages_request (self s) ::
                           schema_calls (self s))%list ∧
    (user_stats_request (self s) ∉
       percentages_request (self s) :: schema_calls (self s)) ∧
    length l = length Scripted.definitions_A_B ∧
    Forall (λ a, is_achieved a = None) l.
Proof.
  apply (C8_no_user_no_is_achieved (H := Scripted.game_A_B) _
           Scripted.percentages_A_B (SteamApp.Val (VResp Scripted.schema_A_B))
           Scripted.definitions_A_B Scripted.globals_A_B);
    try reflexivity; well_formed.
Defined.

(** C4.  The statistics of user 7 have no [achievements]; the game has an
    achievement whose API name is [playerstats], the one field of the
    response.  The aggregation completes, and stores [is_achieved] as true
    on that achievement. *)
Theorem C4_is_achieved_without_achievements :
  Scripted.user_stats_none !! "playerstats" = Some (VResp Scripted.playerstats_none) ∧
  Scripted.playerstats_none !! "achievements" = None ∧
  (SteamApp.achievements (H := Scripted.game_playerstats)
     (Scripted.initially (Scripted.app_of (VInt 7)))).1 =
    Ok (SteamApp.Achievements [Scripted.achievement_playerstats]) ∧
  is_achieved Scripted.achievement_playerstats = Some (VBool true).
Proof.
  split; [reflexivity|]. split; [reflexivity|].
  split; [vm_compute; reflexivity|reflexivity].
Qed.

(** * Further properties *)

(** ** Construction and ownership *)

Section OwnershipFacts.
Context `{Collaborators}.

(** With an [appid], [from_api_response] is the constructor, on the id, the
    name if the response has one, and the user. *)
Lemma from_api_response_run {Self} (api_json : gmap string value)
    (appid associated_userid : value) (s : state Self) :
  api_json !! "appid" = Some appid →
  SteamApp.from_api_response (VResp api_json) associated_userid s =
    SteamApp.__init__ appid (default VNone (api_json !! "name")) associated_userid s.
Proof.
  intros Hid. unfold SteamApp.from_api_response.
  unfold mbind at 1, M_bind at 1, lift. rewrite (contains_key_present _ _ _ Hid).
  change (negb true) with false. cbv beta iota.
  unfold mbind at 1, M_bind at 1. rewrite (getattr_field _ _ _ Hid).
  unfold mbind at 1, M_bind at 1. rewrite contains_key.
  destruct (api_json !! "name") as [name|] eqn:Hname; [|reflexivity].
  unfold mbind at 1, M_bind at 1. by rewrite (getattr_field _ _ _ Hname).
Qed.

(** A response with an [appid] makes an application of that id, linked to the
    given user as its owner, without any request; its name is cached when
    the response has one that is not [None]. *)
Theorem from_api_response_builds {Self} (api_json : gmap string value)
    (appid associated_userid : value) (s : state Self) :
  api_json !! "appid" = Some appid →
  ∃ app s',
    SteamApp.from_api_response (VResp api_json) associated_userid s = (Ok app, s') ∧
    SteamApp._id app = appid ∧
    SteamApp._owner app = associated_userid ∧
    SteamApp._userid app = associated_userid ∧
    calls s' = calls s ∧
    cache_entry app "name" =
      match api_json !! "name" with
      | Some name =>
          if is_None name then None
          else Some (SteamApp.Val name, time_time (clock_reads s))
      | None => None
      end.
Proof.
  intros Hid. rewrite (from_api_response_run _ _ _ _ Hid).
  destruct (api_json !! "name") as [name|]; simpl default.
  - destruct (is_None name) eqn:Hnone.
    + destruct name; try done. eexists _, _. split; [reflexivity|]. done.
    + rewrite (init_with_name _ _ _ _ Hnone). eexists _, _. split; [reflexivity|].
      by repeat split.
  - eexists _, _. split; [reflexivity|]. done.
Qed.

(** The application built from a response with a name answers [name] with
    it, from its cache: the schema is not requested. *)
Theorem name_of_named_response {Self} (api_json : gmap string value)
    (associated_userid name : value) (s0 : state Self) (s : state SteamApp.t) :
  (SteamApp.from_api_response (VResp api_json) associated_userid s0).1 = Ok (self s) →
  api_json !! "name" = Some name →
  is_None name = false →
  SteamApp.name s = (Ok (SteamApp.Val name), tick s).
Proof.
  intros Hbuilt Hname Hsome.
  destruct (api_json !! "appid") as [appid|] eqn:Hid.
  - rewrite (from_api_response_run _ _ _ _ Hid), Hname in Hbuilt.
    simpl default in Hbuilt. rewrite (init_with_name _ _ _ _ Hsome) in Hbuilt.
    injection Hbuilt as Hself.
    apply name_cached with (time_time (clock_reads s0)).
    rewrite <- Hself. unfold cache_entry. simpl. by rewrite lookup_singleton_eq.
  - unfold SteamApp.from_api_response in Hbuilt.
    unfold mbind at 1, M_bind at 1, lift in Hbuilt.
    by rewrite (contains_key_absent _ _ Hid) in Hbuilt.
Qed.

(** The owner of a constructed application is the owner it was constructed
    with ([None] without one); reading it sends no request. *)
Theorem owner_of_constructed {Self} (appid name owner : value) (s0 : state Self)
    (s : state SteamApp.t) :
  (SteamApp.__init__ appid name owner s0).1 = Ok (self s) →
  (SteamApp.owner s).1 = Ok (SteamApp.Val owner) ∧
  calls (SteamApp.owner s).2 = calls s.
Proof.
  intros Hinit.
  assert (SteamApp._owner (self s) = owner ∧ SteamApp._userid (self s) = owner ∧
          cache_entry (self s) "owner" = None) as (Howner & Huser & Hmiss).
  { unfold SteamApp.__init__, mbind, M_bind in Hinit.
    destruct (is_None name); simpl in Hinit; injection Hinit as <-; by repeat split. }
  unfold SteamApp.owner. rewrite cached_property_miss by done.
  unfold mbind, M_bind, get_self. cbn [self tick]. rewrite Howner, Huser.
  by destruct (is_None owner) eqn:Hnone; [destruct owner|].
Qed.

End OwnershipFacts.

(** A response with an id and a name, for user 7. *)
Lemma from_api_response_builds_witness :
  ∃ app s',
    SteamApp.from_api_response (H := Scripted.game_A_B)
      (VResp {[ "appid" := VInt 100; "name" := VStr "Portal" ]}) (VInt 7)
      (Scripted.initially ()) = (Ok app, s') ∧
    SteamApp._id app = VInt 100 ∧
    SteamApp._owner app = VInt 7 ∧
    SteamApp._userid app = VInt 7 ∧
    calls s' = [] ∧
    cache_entry app "name" = Some (SteamApp.Val (VStr "Portal"), 1700000000.0%float).
Proof.
  exact (from_api_response_builds (H := Scripted.game_A_B)
           {[ "appid" := VInt 100; "name" := VStr "Portal" ]} (VInt 100) (VInt 7)
           (Scripted.initially ()) eq_refl).
Defined.

Lemma name_of_named_response_witness :
  SteamApp.name (H := Scripted.hidden_app) (Scripted.initially Scripted.app_named) =
    (Ok (SteamApp.Val (VStr "Portal")), tick (Scripted.initially Scripted.app_named)).
Proof.
  apply (name_of_named_response (H := Scripted.hidden_app)
           {[ "appid" := VInt 100; "name" := VStr "Portal" ]} VNone (VStr "Portal")
           (Scripted.initially ()));
    reflexivity.
Defined.

(** Application 100 constructed for user 7. *)
Lemma owner_of_constructed_witness :
  let s := Scripted.initially (Scripted.app_of (VInt 7)) in
  (SteamApp.owner (H := Scripted.game_A_B) s).1 = Ok (SteamApp.Val (VInt 7)) ∧
  calls (SteamApp.owner (H := Scripted.game_A_B) s).2 = calls s.
Proof.
  apply (owner_of_constructed (H := Scripted.game_A_B) (VInt 100) VNone (VInt 7)
           (Scripted.initially ())).
  reflexivity.
Defined.

(** ** The lazy fields of an achievement *)

Section LazyFieldFacts.
Context `{Collaborators}.

Lemma is_hidden_loop_skip (id : value) (before rest : list value) :
  Forall (λ d, names d id false) before →
  SteamAchievement.is_hidden_loop id (before ++ rest) =
    SteamAchievement.is_hidden_loop id rest.
Proof.
  induction 1 as [|d before (name & Hname & Hne) _ IH]; [done|].
  simpl. rewrite Hname. simpl. by rewrite Hne.
Qed.

Lemma is_unlocked_loop_skip (id : value) (before rest : list value) :
  Forall (λ entry, has_apiname entry id false) before →
  SteamAchievement.is_unlocked_loop id (before ++ rest) =
    SteamAchievement.is_unlocked_loop id rest.
Proof.
  induction 1 as [|entry before (apiname & Hname & Hne) _ IH]; [done|].
  simpl. rewrite Hname. simpl. by rewrite Hne.
Qed.

(** The first read of [is_hidden], given the schema the API answers with. *)
Lemma is_hidden_computed (s : state SteamAchievement.t) (response : gmap string value)
    (definitions : list value) :
  cache_entry (self s) "is_hidden" = None →
  APIConnection_call "ISteamUserStats" "GetSchemaForGame" "v2"
    [("appid", SteamAchievement._appid (self s))] = Ok response →
  schema_definitions (SteamApp.Val (VResp response)) = Ok definitions →
  (SteamAchievement.is_hidden s).1 =
    SteamAchievement.is_hidden_loop (SteamAchievement._id (self s)) definitions.
Proof.
  intros Hmiss Hcall Hdefinitions. unfold SteamAchievement.is_hidden.
  rewrite cached_property_miss by done.
  unfold mbind at 1, M_bind at 1, get_self. cbn [self tick].
  unfold mbind at 1, M_bind at 1, APIConnection_call_. cbn [self]. rewrite Hcall.
  unfold lift. simpl fmap.
  unfold schema_definitions, SteamApp.obj_getattr in Hdefinitions.
  destruct (getattr (VResp response) "game") as [game|] eqn:Hgame; [|done].
  change (result_fmap _ _ VResp (Ok response)) with (Ok (VResp response)).
  cbv beta iota. rewrite Hgame. simpl in Hdefinitions |- *.
  destruct (getattr game "availableGameStats") as [stats|]; [|done].
  simpl in Hdefinitions |- *.
  destruct (getattr stats "achievements") as [l|]; [|done].
  simpl in Hdefinitions |- *. rewrite Hdefinitions. simpl.
  by destruct (SteamAchievement.is_hidden_loop _ _).
Qed.

(** When the schema defines no achievement of this API name, [is_hidden]
    is [None]: neither [False] nor an error. *)
Theorem is_hidden_not_in_schema (s : state SteamAchievement.t)
    (response : gmap string value) (definitions : list value) :
  cache_entry (self s) "is_hidden" = None →
  APIConnection_call "ISteamUserStats" "GetSchemaForGame" "v2"
    [("appid", SteamAchievement._appid (self s))] = Ok response →
  schema_definitions (SteamApp.Val (VResp response)) = Ok definitions →
  Forall (λ d, names d (SteamAchievement._id (self s)) false) definitions →
  (SteamAchievement.is_hidden s).1 = Ok VNone.
Proof.
  intros Hmiss Hcall Hdefinitions Hnone.
  rewrite (is_hidden_computed _ _ _ Hmiss Hcall Hdefinitions).
  rewrite <- (app_nil_r definitions). by rewrite is_hidden_loop_skip.
Qed.

(** Otherwise [is_hidden] is decided by the first definition of this API
    name: hidden unless its [hidden] equals 0. *)
Theorem is_hidden_from_schema (s : state SteamAchievement.t)
    (response : gmap string value) (before after : list value) (d hidden : value) :
  cache_entry (self s) "is_hidden" = None →
  APIConnection_call "ISteamUserStats" "GetSchemaForGame" "v2"
    [("appid", SteamAchievement._appid (self s))] = Ok response →
  schema_definitions (SteamApp.Val (VResp response)) = Ok (before ++ d :: after)%list →
  Forall (λ d', names d' (SteamAchievement._id (self s)) false) before →
  names d (SteamAchievement._id (self s)) true →
  getattr d "hidden" = Ok hidden →
  (SteamAchievement.is_hidden s).1 = Ok (VBool (negb (py_eq hidden (VInt 0)))).
Proof.
  intros Hmiss Hcall Hdefinitions Hbefore (name & Hname & Heq) Hhidden.
  rewrite (is_hidden_computed _ _ _ Hmiss Hcall Hdefinitions).
  rewrite is_hidden_loop_skip by done.
  simpl. rewrite Hname. simpl. rewrite Heq, Hhidden. simpl.
  by destruct (py_eq hidden (VInt 0)).
Qed.

(** [is_unlocked] is decided by the first entry of this API name: unlocked
    when its [achieved] equals 1; the entries after it are not looked at. *)
Theorem is_unlocked_from_first_entry (s : state SteamAchievement.t)
    (response : gmap string value) (before after : list value) (entry achieved : value) :
  is_None (SteamAchievement._userid (self s)) = false →
  cache_entry (self s) "is_unlocked" = None →
  APIConnection_call "ISteamUserStats" "GetPlayerAchievements" "v1"
    [("steamid", SteamAchievement._userid (self s));
     ("appid", SteamAchievement._appid (self s)); ("l", VStr "English")] = Ok response →
  user_entries (VResp response) = Ok (before ++ entry :: after)%list →
  Forall (λ entry', has_apiname entry' (SteamAchievement._id (self s)) false) before →
  has_apiname entry (SteamAchievement._id (self s)) true →
  getattr entry "achieved" = Ok achieved →
  (SteamAchievement.is_unlocked s).1 = Ok (VBool (py_eq achieved (VInt 1))).
Proof.
  intros Huser Hmiss Hcall Hentries Hbefore (apiname & Hname & Heq) Hachieved.
  unfold SteamAchievement.is_unlocked.
  rewrite cached_property_miss by done.
  unfold mbind at 1, M_bind at 1, get_self. cbn [self tick]. rewrite Huser.
  unfold mbind at 1, M_bind at 1, APIConnection_call_. cbn [self]. rewrite Hcall.
  unfold lift. change (VResp <$> Ok response) with (Ok (VResp response)).
  cbv beta iota.
  unfold user_entries in Hentries.
  destruct (getattr (VResp response) "playerstats") as [playerstats|]; [|done].
  simpl in Hentries |- *.
  destruct (getattr playerstats "achievements") as [l|]; [|done].
  simpl in Hentries |- *. rewrite Hentries. simpl.
  rewrite is_unlocked_loop_skip by done.
  simpl. rewrite Hname. simpl. rewrite Heq, Hachieved. simpl.
  by destruct (py_eq achieved (VInt 1)).
Qed.

End LazyFieldFacts.

(** Achievement [C], which the schema of the game with [A] and [B] does
    not define. *)
Lemma is_hidden_not_in_schema_witness :
  (SteamAchievement.is_hidden (H := Scripted.game_A_B)
     (Scripted.initially
        (SteamAchievement.__init__ (VInt 100) (VStr "C") (VStr "Third") VNone))).1 =
  Ok VNone.
Proof.
  apply (is_hidden_not_in_schema (H := Scripted.game_A_B) _ Scripted.schema_A_B
           Scripted.definitions_A_B); try reflexivity.
  repeat (constructor; [named|]). constructor.
Defined.

(** Achievement [B], the second of the schema, which is hidden. *)
Lemma is_hidden_from_schema_witness :
  (SteamAchievement.is_hidden (H := Scripted.game_A_B)
     (Scripted.initially
        (SteamAchievement.__init__ (VInt 100) (VStr "B") (VStr "Second") VNone))).1 =
  Ok (VBool true).
Proof.
  apply (is_hidden_from_schema (H := Scripted.game_A_B) _ Scripted.schema_A_B
           [Scripted.obj [("name", VStr "A"); ("displayName", VStr "First");
                          ("hidden", VInt 0)]]
           []
           (Scripted.obj [("name", VStr "B"); ("displayName", VStr "Second");
                          ("hidden", VInt 1)])
           (VInt 1)); try reflexivity.
  - repeat (constructor; [named|]). constructor.
  - named.
Defined.

(** Achievement [A] of user 7, who unlocked it. *)
Lemma is_unlocked_from_first_entry_witness :
  (SteamAchievement.is_unlocked (H := Scripted.game_A_B)
     (Scripted.initially
        (SteamAchievement.__init__ (VInt 100) (VStr "A") (VStr "First") (VInt 7)))).1 =
  Ok (VBool true).
Proof.
  apply (is_unlocked_from_first_entry (H := Scripted.game_A_B) _
           Scripted.player_achievements_A []
           [Scripted.obj [("apiname", VStr "B"); ("achieved", VInt 0)]]
           (Scripted.obj [("apiname", VStr "A"); ("achieved", VInt 1)])
           (VInt 1)); try reflexivity.
  - constructor.
  - named.
Defined.

(** ** Reading twice, and failing *)

Section CacheLaws.
Context `{Collaborators}.
Context {Self V : Type} `{Cached Self V}.
Hypothesis get_set_cache : ∀ (c : option (cache V)) (x : Self), get_cache (set_cache c x) = c.

(** A property cached for ever that returned once returns the same from
    then on, and only reads the clock. *)
Lemma cached_property_again (name : string) (fget : M Self V) (s s' : state Self)
    (v : V) :
  cached_property INFINITE name fget s = (Ok v, s') →
  cached_property INFINITE name fget s' = (Ok v, tick s').
Proof.
  destruct (cache_entry (self s) name) as [[v0 t]|] eqn:Hc.
  - rewrite (cached_property_hit _ _ _ _ _ Hc). intros [= <- <-].
    by apply cached_property_hit with t.
  - rewrite cached_property_miss by done.
    destruct (fget (tick s)) as [[v1|e] s1]; [|done]. intros [= <- <-].
    eapply cached_property_hit. unfold cache_entry, with_entry. cbn [self].
    rewrite get_set_cache. simpl. apply lookup_insert_eq.
Qed.

End CacheLaws.

Section ReadingTwice.
Context `{Collaborators}.

(** Each cached property of an application ([_schema], [achievements],
    [name], [owner], [app_info]), once it has returned, returns the same
    value at the next read, which sends no request and constructs
    nothing. *)
Theorem cached_properties_read_once (property : M SteamApp.t SteamApp.pyobj)
    (s s' : state SteamApp.t) (v : SteamApp.pyobj) :
  property ∈ cached_properties →
  property s = (Ok v, s') →
  property s' = (Ok v, tick s') ∧
  calls (tick s') = calls s' ∧ constructed (tick s') = constructed s' ∧
  self (tick s') = self s'.
Proof.
  intros Hin Hrun. split; [|repeat split].
  assert (∀ name fget, property = cached_property INFINITE name fget →
                       property s' = (Ok v, tick s')) as Hcached.
  { intros name fget ->.
    refine (cached_property_again _ name fget s s' v Hrun). intros c x. reflexivity. }
  unfold cached_properties in Hin.
  apply elem_of_cons in Hin as [Hp|Hin]; [exact (Hcached _ _ Hp)|].
  apply elem_of_cons in Hin as [Hp|Hin]; [exact (Hcached _ _ Hp)|].
  apply elem_of_cons in Hin as [Hp|Hin]; [exact (Hcached _ _ Hp)|].
  apply elem_of_cons in Hin as [Hp|Hin]; [exact (Hcached _ _ Hp)|].
  apply elem_of_cons in Hin as [Hp|Hin]; [exact (Hcached _ _ Hp)|].
  by apply elem_of_nil in Hin.
Qed.

(** When the request for the global percentages fails, [achievements]
    fails with the same error; nothing else was requested, and the
    application is as it was: nothing was cached. *)
Theorem achievements_percentages_failure (s : state SteamApp.t) (e : exn) :
  cache_entry (self s) "achievements" = None →
  APIConnection_call "ISteamUserStats" "GetGlobalAchievementPercentagesForApp" "v0002"
    [("gameid", SteamApp._id (self s))] = Raise e →
  SteamApp.achievements s = (Raise e, after_percentages s) ∧
  self (after_percentages s) = self s ∧
  calls (after_percentages s) = (calls s ++ [percentages_request (self s)])%list.
Proof.
  intros Hmiss Hcall. split; [|done].
  unfold SteamApp.achievements. rewrite cached_property_miss by done.
  unfold mbind at 1, M_bind at 1, get_self. cbn [fst snd].
  unfold mbind at 1, M_bind at 1, APIConnection_call_. cbn [self tick].
  by rewrite Hcall.
Qed.

End ReadingTwice.

(** The achievements of the game with [A] and [B], read twice. *)
Lemma cached_properties_read_once_witness :
  let s' := (SteamApp.achievements (H := Scripted.game_A_B)
               (Scripted.initially (Scripted.app_of (VInt 7)))).2 in
  SteamApp.achievements (H := Scripted.game_A_B) s' =
    (Ok (SteamApp.Achievements [Scripted.achievement_A; Scripted.achievement_B]), tick s') ∧
  calls (tick s') = calls s' ∧ constructed (tick s') = constructed s' ∧
  self (tick s') = self s'.
Proof.
  intros s'.
  apply (cached_properties_read_once (H := Scripted.game_A_B)
           (SteamApp.achievements (H := Scripted.game_A_B))
           (Scripted.initially (Scripted.app_of (VInt 7)))).
  - unfold cached_properties. apply elem_of_cons. right. apply elem_of_cons. by left.
  - vm_compute. reflexivity.
Defined.

(** Application 100 while the API is down. *)
Lemma achievements_percentages_failure_witness :
  let s := Scripted.initially (Scripted.app_of (VInt 7)) in
  SteamApp.achievements (H := Scripted.offline) s =
    (Raise (APIError "offline"), after_percentages s) ∧
  self (after_percentages s) = self s ∧
  calls (after_percentages s) = (calls s ++ [percentages_request (self s)])%list.
Proof.
  apply (achievements_percentages_failure (H := Scripted.offline)); reflexivity.
Defined.

(** ** The achievements an application returns *)

Section ReturnedAchievements.
Context `{Collaborators}.

Lemma self_after_schema_again (s : state SteamApp.t) (schema : SteamApp.pyobj) :
  self (after_schema schema (after_schema schema s)) = self (after_schema schema s).
Proof.
  unfold after_schema at 1. cbn [self].
  pose proof (schema_calls_after s schema) as Hc. unfold schema_calls in Hc.
  by destruct (cache_entry (self (after_schema schema s)) "_schema").
Qed.

Lemma cache_entry_after_schema_ne (s : state SteamApp.t) (schema : SteamApp.pyobj)
    (name : string) :
  name ≠ "_schema" →
  cache_entry (self (after_schema schema s)) name = cache_entry (self s) name.
Proof.
  intros Hne. unfold after_schema. cbn [self].
  destruct (cache_entry (self s) "_schema"); [done|].
  by apply cache_entry_with_entry_ne.
Qed.

(** Lines 74-95 again, keeping what was built and what became of the
    application. *)
Lemma assemble_run_full (global_percentages userid unlocks : value) (s : state SteamApp.t)
    (schema : SteamApp.pyobj) (definitions globals : list value) :
  schema_of (self s) = Ok schema →
  schema_definitions schema = Ok definitions →
  Forall schema_entry definitions →
  global_entries global_percentages = Ok globals →
  Forall percentage_entry globals →
  is_None unlocks = true ∨ searchable unlocks →
  ∃ l s',
    SteamApp.assemble global_percentages userid unlocks s = (Ok (SteamApp.Achievements l), s') ∧
    self s' = self (after_schema schema s) ∧
    calls s' = (calls s ++ schema_calls (self s))%list ∧
    constructed s' = (constructed s + length definitions)%nat ∧
    Forall2 (assembled (SteamApp._id (self s)) userid globals unlocks) definitions l.
Proof.
  intros Hschema Hdefinitions Hwf Hentries Hglobals Hunlocks.
  pose proof Hdefinitions as Hshape. unfold schema_definitions in Hshape.
  destruct (SteamApp.obj_getattr schema "game") as [game|] eqn:Hgame; [|done].
  simpl in Hshape.
  destruct (getattr game "availableGameStats") as [stats|] eqn:Hstats; [|done].
  destruct (getattr_inv _ _ _ Hstats) as (m & -> & Hm). clear Hshape.
  set (s1 := after_schema schema s).
  set (s2 := after_schema schema s1).
  destruct (schema_loop_run (SteamApp._id (self s)) userid global_percentages globals
              definitions Hentries Hglobals Hwf [] s2)
    as (built & s3 & Hloop & Hself3 & Hcalls3 & Hconstructed3 & Hbuilt).
  assert (calls s2 = (calls s ++ schema_calls (self s))%list) as Hcalls2.
  { unfold s2, after_schema at 1. cbn [calls]. unfold s1.
    rewrite schema_calls_after, app_nil_r. reflexivity. }
  assert (self s2 = self s1) as Hself2 by apply self_after_schema_again.
  assert (SteamApp.assemble global_percentages userid unlocks s =
          ((if negb (is_None unlocks) then SteamApp.unlocks_loop unlocks built
            else mret built) ≫= λ l, mret (SteamApp.Achievements l)) s3) as ->.
  { unfold SteamApp.assemble.
    unfold mbind at 1, M_bind at 1, get_self.
    unfold mbind at 1, M_bind at 1. rewrite (schema_read _ _ Hschema).
    unfold mbind at 1, M_bind at 1, lift. rewrite Hgame.
    unfold mbind at 1, M_bind at 1. rewrite (contains_key_present _ _ _ Hm).
    change (negb true) with false. cbv beta iota.
    unfold mbind at 1, M_bind at 1.
    rewrite (schema_read _ _ (schema_of_after _ _ Hschema)).
    unfold mbind at 1, M_bind at 1.
    change (SteamApp.obj_getattr schema "game" ≫= _) with (schema_definitions schema).
    rewrite Hdefinitions.
    unfold mbind at 1, M_bind at 1. fold s1. fold s2. cbn [self]. rewrite Hloop.
    reflexivity. }
  destruct (is_None unlocks) eqn:Hnone.
  - exists built, s3. split; [reflexivity|]. split; [congruence|]. split; [congruence|].
    split; [exact Hconstructed3|].
    eapply Forall2_impl; [exact Hbuilt|]. intros d a Hda. exists a. by rewrite Hnone.
  - destruct Hunlocks as [|Hsearch]; [done|].
    destruct (unlocks_loop_run unlocks built Hsearch) with (s := s3)
      as (marked & s4 & Hmark & Hself4 & Hcalls4 & Hconstructed4 & Hmarked).
    { clear -Hbuilt. induction Hbuilt as [|d a ? ? Hda _ IH]; constructor; [|exact IH].
      by eapply built_has_cache. }
    exists marked, s4. unfold mbind, M_bind. change (negb false) with true.
    cbv beta iota. rewrite Hmark.
    split; [reflexivity|]. split; [congruence|]. split; [congruence|].
    split; [rewrite Hconstructed4; exact Hconstructed3|].
    eapply Forall2_compose; [|exact Hbuilt|exact Hmarked].
    intros d a a' Hda Haa'. exists a. by rewrite Hnone.
Qed.

(** Lines 59-73 again, keeping the user. *)
Lemma user_unlocks_run_full (s : state SteamApp.t) :
  user_stats_readable (self s) →
  ∃ unlocks s',
    SteamApp.user_unlocks s = (Ok (SteamApp._userid (self s), unlocks), s') ∧
    self s' = self s ∧ constructed s' = constructed s ∧
    (is_None unlocks = true ∨ searchable unlocks) ∧
    (is_None (SteamApp._userid (self s)) = true → unlocks = VNone).
Proof.
  intros Hreadable.
  destruct (is_None (SteamApp._userid (self s))) eqn:Hbound.
  - exists VNone, s. rewrite (user_unlocks_unbound _ Hbound).
    destruct (SteamApp._userid (self s)); try done. repeat split. by left.
  - destruct Hreadable as [?|(user_stats & Hcall & Hshape)]; [congruence|].
    destruct Hshape as [(entries & Hentries & Hwf)|(playerstats & Hstats & Hnone)].
    + destruct (user_unlocks_listed _ _ _ Hbound Hcall Hentries Hwf) as (names & -> & _).
      eexists _, _. repeat split; [|done]. right. apply searchable_list.
    + rewrite (user_unlocks_unlisted _ _ _ Hbound Hcall Hstats Hnone).
      eexists _, _. repeat split; [|done]. right. apply searchable_response.
Qed.

(** The first read of [achievements] on well-formed responses, with or
    without a user: what it returns, and what it leaves in the cache of the
    application. *)
Lemma achievements_full (s : state SteamApp.t) (percentages : gmap string value)
    (schema : SteamApp.pyobj) (definitions globals : list value) :
  cache_entry (self s) "achievements" = None →
  APIConnection_call "ISteamUserStats" "GetGlobalAchievementPercentagesForApp" "v0002"
    [("gameid", SteamApp._id (self s))] = Ok percentages →
  user_stats_readable (self s) →
  schema_of (self s) = Ok schema →
  schema_definitions schema = Ok definitions →
  Forall schema_entry definitions →
  global_entries (VResp percentages) = Ok globals →
  Forall percentage_entry globals →
  ∃ l s' unlocks,
    SteamApp.achievements s = (Ok (SteamApp.Achievements l), s') ∧
    (is_None (SteamApp._userid (self s)) = true → unlocks = VNone) ∧
    schema_of (self s') = Ok schema ∧
    schema_calls (self s') = [] ∧
    cache_entry (self s') "name" = cache_entry (self s) "name" ∧
    Forall2 (assembled (SteamApp._id (self s)) (SteamApp._userid (self s)) globals unlocks)
            definitions l.
Proof.
  intros Hmiss Hcall Hreadable Hschema Hdefinitions Hwf Hentries Hglobals.
  destruct (user_unlocks_run_full (after_percentages s) Hreadable)
    as (unlocks & s2 & Huser & Hself2 & _ & Hunlocks & Hunbound).
  cbn [self after_percentages] in Huser, Hself2, Hunbound.
  rewrite <- Hself2 in Hschema.
  destruct (assemble_run_full (VResp percentages) (SteamApp._userid (self s)) unlocks s2
              schema definitions globals Hschema Hdefinitions Hwf Hentries Hglobals Hunlocks)
    as (l & s3 & Hrun & Hself3 & _ & _ & Hl).
  rewrite Hself2 in Hl.
  exists l. eexists. exists unlocks.
  rewrite (achievements_computed _ _ Hmiss Hcall).
  unfold mbind, M_bind. rewrite Huser, Hrun.
  split; [reflexivity|]. split; [exact Hunbound|]. cbn [self].
  assert (cache_entry (self s3) "_schema" = cache_entry (self (after_schema schema s2)) "_schema")
    as Hsame by by rewrite Hself3.
  pose proof (schema_of_after _ _ Hschema) as Hafter.
  pose proof (schema_calls_after s2 schema) as Hnocalls.
  split; [|split; [|split; [|exact Hl]]].
  - unfold schema_of in Hafter |- *.
    rewrite cache_entry_with_entry_ne by done. by rewrite Hself3.
  - unfold schema_calls in Hnocalls |- *.
    rewrite cache_entry_with_entry_ne by done. rewrite Hself3.
    by destruct (cache_entry (self (after_schema schema s2)) "_schema").
  - rewrite cache_entry_with_entry_ne by done. rewrite Hself3.
    rewrite cache_entry_after_schema_ne by done. by rewrite Hself2.
Qed.

Lemma assembled_inv (appid userid : value) (globals : list value) (unlocks d : value)
    (a : SteamAchievement.t) :
  assembled appid userid globals unlocks d a →
  getattr d "name" = Ok (SteamAchievement._id a) ∧
  getattr d "displayName" = Ok (SteamAchievement._displayname a) ∧
  SteamAchievement._appid a = appid ∧
  SteamAchievement._userid a = userid ∧
  (∃ hidden t, getattr d "hidden" = Ok hidden ∧
               cache_entry a "is_hidden" =
                 Some (VBool (negb (py_eq hidden (VInt 0))), t)) ∧
  cache_entry a "is_unlocked" = None.
Proof.
  intros (a0 & (Hname & Hdisplay & Happ & Huser & _ & hidden & t & Hhidden & Hcache) & Hcase).
  destruct (is_None unlocks).
  - subst a0. split; [done|]. split; [done|]. split; [done|]. split; [done|]. split.
    + exists hidden, t. split; [done|]. unfold cache_entry. simpl. rewrite Hcache. simpl.
      by rewrite lookup_singleton_eq.
    + unfold cache_entry. simpl. rewrite Hcache. simpl. by rewrite lookup_singleton_ne.
  - destruct Hcase as (unlocked & t' & c & _ & Hc & ->).
    rewrite Hcache in Hc. injection Hc as <-.
    split; [done|]. split; [done|]. split; [done|]. split; [done|]. split.
    + exists hidden, t. split; [done|]. unfold cache_entry. simpl.
      rewrite lookup_insert_ne by done. by rewrite lookup_singleton_eq.
    + unfold cache_entry. simpl.
      rewrite lookup_insert_ne by done. by rewrite lookup_singleton_ne.
Qed.

(** [is_unlocked] without a user, where it is not cached. *)
Lemma is_unlocked_unbound (s : state SteamAchievement.t) :
  SteamAchievement._userid (self s) = VNone →
  cache_entry (self s) "is_unlocked" = None →
  SteamAchievement.is_unlocked s =
    (Raise (ValueError "No Steam ID linked to this achievement!"), tick s).
Proof.
  intros Huser Hmiss. unfold SteamAchievement.is_unlocked.
  rewrite cached_property_miss by done.
  unfold mbind, M_bind, get_self. simpl. by rewrite Huser.
Qed.

(** The requests a first read of [name] sends: the schema, unless cached. *)
Lemma name_calls (s : state SteamApp.t) (schema game : gmap string value) :
  cache_entry (self s) "name" = None →
  schema_of (self s) = Ok (SteamApp.Val (VResp schema)) →
  schema !! "game" = Some (VResp game) →
  calls (SteamApp.name s).2 = (calls s ++ schema_calls (self s))%list.
Proof.
  intros Hmiss Hschema Hgame. unfold SteamApp.name.
  rewrite cached_property_miss by done.
  unfold mbind at 1, M_bind at 1. rewrite (schema_read (tick s) _ Hschema).
  unfold mbind at 1, M_bind at 1, lift.
  change (SteamApp.obj_getattr (SteamApp.Val (VResp schema)) "game")
    with (getattr (VResp schema) "game").
  rewrite (getattr_field _ _ _ Hgame).
  unfold mbind at 1, M_bind at 1. rewrite contains_key.
  destruct (game !! "gameName") as [gameName|] eqn:Hname.
  - change (bool_decide (is_Some (Some gameName))) with true. cbv beta iota.
    unfold mbind at 1, M_bind at 1.
    rewrite (schema_read _ _ (schema_of_after (tick s) _ Hschema)).
    unfold mbind, M_bind, lift.
    change (SteamApp.obj_getattr (SteamApp.Val (VResp schema)) "game")
      with (getattr (VResp schema) "game").
    rewrite (getattr_field _ _ _ Hgame).
    change (result_bind _ _ ?k (Ok ?x)) with (k x). cbv beta.
    rewrite (getattr_field _ _ _ Hname). unfold mret, M_ret. cbn [snd calls].
    unfold after_schema at 1. cbn [calls].
    rewrite schema_calls_after, app_nil_r. reflexivity.
  - reflexivity.
Qed.

(** Every achievement [achievements] returns is linked to the application
    and to its user, under the API name and the display name of its
    definition; the list follows the order of the schema. *)
Theorem achievements_linked (s : state SteamApp.t) (percentages : gmap string value)
    (schema : SteamApp.pyobj) (definitions globals : list value) :
  cache_entry (self s) "achievements" = None →
  APIConnection_call "ISteamUserStats" "GetGlobalAchievementPercentagesForApp" "v0002"
    [("gameid", SteamApp._id (self s))] = Ok percentages →
  user_stats_readable (self s) →
  schema_of (self s) = Ok schema →
  schema_definitions schema = Ok definitions →
  Forall schema_entry definitions →
  global_entries (VResp percentages) = Ok globals →
  Forall percentage_entry globals →
  ∃ l, (SteamApp.achievements s).1 = Ok (SteamApp.Achievements l) ∧
       Forall2 (λ d a,
                  getattr d "name" = Ok (SteamAchievement.apiname a) ∧
                  getattr d "displayName" = Ok (SteamAchievement.name a) ∧
                  SteamAchievement.appid a = SteamApp._id (self s) ∧
                  SteamAchievement._userid a = SteamApp._userid (self s))
               definitions l.
Proof.
  intros Hmiss Hcall Hreadable Hschema Hdefinitions Hwf Hentries Hglobals.
  destruct (achievements_full s percentages schema definitions globals)
    as (l & s' & unlocks & Hrun & _ & _ & _ & _ & Hl); try done.
  exists l. rewrite Hrun. split; [reflexivity|].
  eapply Forall2_impl; [exact Hl|]. intros d a Hda.
  apply assembled_inv in Hda as (? & ? & ? & ? & _). done.
Qed.

(** On every achievement [achievements] returns, [is_hidden] is answered
    from the cache with the flag of its definition (hidden unless [hidden]
    equals 0): reading it sends no request. *)
Theorem achievements_know_is_hidden (s : state SteamApp.t)
    (percentages : gmap string value) (schema : SteamApp.pyobj)
    (definitions globals : list value) :
  cache_entry (self s) "achievements" = None →
  APIConnection_call "ISteamUserStats" "GetGlobalAchievementPercentagesForApp" "v0002"
    [("gameid", SteamApp._id (self s))] = Ok percentages →
  user_stats_readable (self s) →
  schema_of (self s) = Ok schema →
  schema_definitions schema = Ok definitions →
  Forall schema_entry definitions →
  global_entries (VResp percentages) = Ok globals →
  Forall percentage_entry globals →
  ∃ l, (SteamApp.achievements s).1 = Ok (SteamApp.Achievements l) ∧
       Forall2 (λ d a,
                  ∃ hidden,
                    getattr d "hidden" = Ok hidden ∧
                    ∀ sa : state SteamAchievement.t, self sa = a →
                      SteamAchievement.is_hidden sa =
                        (Ok (VBool (negb (py_eq hidden (VInt 0)))), tick sa) ∧
                      calls (tick sa) = calls sa)
               definitions l.
Proof.
  intros Hmiss Hcall Hreadable Hschema Hdefinitions Hwf Hentries Hglobals.
  destruct (achievements_full s percentages schema definitions globals)
    as (l & s' & unlocks & Hrun & _ & _ & _ & _ & Hl); try done.
  exists l. rewrite Hrun. split; [reflexivity|].
  eapply Forall2_impl; [exact Hl|]. intros d a Hda.
  apply assembled_inv in Hda as (_ & _ & _ & _ & (hidden & t & Hhidden & Hentry) & _).
  exists hidden. split; [exact Hhidden|]. intros sa <-. split; [|done].
  unfold SteamAchievement.is_hidden. by apply cached_property_hit with t.
Qed.

(** On every achievement that the [achievements] of an application without
    a user returns, [is_unlocked] raises the [ValueError], and sends no
    request. *)
Theorem achievements_without_user_cannot_unlock (s : state SteamApp.t)
    (percentages : gmap string value) (schema : SteamApp.pyobj)
    (definitions globals : list value) :
  cache_entry (self s) "achievements" = None →
  SteamApp._userid (self s) = VNone →
  APIConnection_call "ISteamUserStats" "GetGlobalAchievementPercentagesForApp" "v0002"
    [("gameid", SteamApp._id (self s))] = Ok percentages →
  schema_of (self s) = Ok schema →
  schema_definitions schema = Ok definitions →
  Forall schema_entry definitions →
  global_entries (VResp percentages) = Ok globals →
  Forall percentage_entry globals →
  ∃ l, (SteamApp.achievements s).1 = Ok (SteamApp.Achievements l) ∧
       length l = length definitions ∧
       Forall (λ a, ∀ sa : state SteamAchievement.t, self sa = a →
                 SteamAchievement.is_unlocked sa =
                   (Raise (ValueError "No Steam ID linked to this achievement!"), tick sa) ∧
                 calls (tick sa) = calls sa)
              l.
Proof.
  intros Hmiss Hnone Hcall Hschema Hdefinitions Hwf Hentries Hglobals.
  destruct (achievements_full s percentages schema definitions globals)
    as (l & s' & unlocks & Hrun & _ & _ & _ & _ & Hl); try done.
  { left. by rewrite Hnone. }
  exists l. rewrite Hrun. split; [reflexivity|].
  split; [symmetry; by eapply Forall2_length|].
  clear -Hl Hnone. induction Hl as [|d a ? ? Hda _ IH]; constructor; [|exact IH].
  apply assembled_inv in Hda as (_ & _ & _ & Huser & _ & Hmiss).
  intros sa <-. split; [|done]. apply is_unlocked_unbound; [congruence|done].
Qed.

(** After [achievements] was read, the first read of [name] takes the
    schema from the cache: it returns the [gameName] (or [<Unknown>]) and
    sends no request. *)
Theorem name_after_achievements (s : state SteamApp.t)
    (percentages schema game : gmap string value) (definitions globals : list value) :
  cache_entry (self s) "achievements" = None →
  cache_entry (self s) "name" = None →
  APIConnection_call "ISteamUserStats" "GetGlobalAchievementPercentagesForApp" "v0002"
    [("gameid", SteamApp._id (self s))] = Ok percentages →
  user_stats_readable (self s) →
  schema_of (self s) = Ok (SteamApp.Val (VResp schema)) →
  schema !! "game" = Some (VResp game) →
  schema_definitions (SteamApp.Val (VResp schema)) = Ok definitions →
  Forall schema_entry definitions →
  global_entries (VResp percentages) = Ok globals →
  Forall percentage_entry globals →
  (SteamApp.name (SteamApp.achievements s).2).1 =
    Ok (SteamApp.Val (default (VStr "<Unknown>") (game !! "gameName"))) ∧
  calls (SteamApp.name (SteamApp.achievements s).2).2 = calls (SteamApp.achievements s).2.
Proof.
  intros Hmiss Hname Hcall Hreadable Hschema Hgame Hdefinitions Hwf Hentries Hglobals.
  destruct (achievements_full s percentages _ definitions globals
              Hmiss Hcall Hreadable Hschema Hdefinitions Hwf Hentries Hglobals)
    as (l & s' & unlocks & Hrun & _ & Hschema' & Hnocalls & Hname' & _).
  rewrite Hrun. cbn [snd]. rewrite Hname in Hname'. split.
  - by apply name_computed with schema.
  - rewrite (name_calls _ _ _ Hname' Hschema' Hgame), Hnocalls. apply app_nil_r.
Qed.

End ReturnedAchievements.

(** The game with [A] and [B], for user 7. *)
Lemma achievements_linked_witness :
  let s := Scripted.initially (Scripted.app_of (VInt 7)) in
  ∃ l, (SteamApp.achievements (H := Scripted.game_A_B) s).1 = Ok (SteamApp.Achievements l) ∧
       Forall2 (λ d a,
                  getattr d "name" = Ok (SteamAchievement.apiname a) ∧
                  getattr d "displayName" = Ok (SteamAchievement.name a) ∧
                  SteamAchievement.appid a = VInt 100 ∧
                  SteamAchievement._userid a = VInt 7)
               Scripted.definitions_A_B l.
Proof.
  apply (achievements_linked (H := Scripted.game_A_B)
           (Scripted.initially (Scripted.app_of (VInt 7))) Scripted.percentages_A_B
           (SteamApp.Val (VResp Scripted.schema_A_B)) Scripted.definitions_A_B
           Scripted.globals_A_B);
    try reflexivity; [readable_for_user_7|well_formed|well_formed].
Defined.

Lemma achievements_know_is_hidden_witness :
  let s := Scripted.initially (Scripted.app_of (VInt 7)) in
  ∃ l, (SteamApp.achievements (H := Scripted.game_A_B) s).1 = Ok (SteamApp.Achievements l) ∧
       Forall2 (λ d a,
                  ∃ hidden,
                    getattr d "hidden" = Ok hidden ∧
                    ∀ sa : state SteamAchievement.t, self sa = a →
                      SteamAchievement.is_hidden (H := Scripted.game_A_B) sa =
                        (Ok (VBool (negb (py_eq (H := Scripted.game_A_B) hidden (VInt 0)))),
                         tick sa) ∧
                      calls (tick sa) = calls sa)
               Scripted.definitions_A_B l.
Proof.
  apply (achievements_know_is_hidden (H := Scripted.game_A_B) _ Scripted.percentages_A_B
           (SteamApp.Val (VResp Scripted.schema_A_B)) Scripted.definitions_A_B
           Scripted.globals_A_B);
    try reflexivity; [readable_for_user_7|well_formed|well_formed].
Defined.

(** The game with [A] and [B], for nobody. *)
Lemma achievements_without_user_cannot_unlock_witness :
  let s := Scripted.initially (Scripted.app_of VNone) in
  ∃ l, (SteamApp.achievements (H := Scripted.game_A_B) s).1 = Ok (SteamApp.Achievements l) ∧
       length l = length Scripted.definitions_A_B ∧
       Forall (λ a, ∀ sa : state SteamAchievement.t, self sa = a →
                 SteamAchievement.is_unlocked (H := Scripted.game_A_B) sa =
                   (Raise (ValueError "No Steam ID linked to this achievement!"), tick sa) ∧
                 calls (tick sa) = calls sa)
              l.
Proof.
  apply (achievements_without_user_cannot_unlock (H := Scripted.game_A_B) _
           Scripted.percentages_A_B (SteamApp.Val (VResp Scripted.schema_A_B))
           Scripted.definitions_A_B Scripted.globals_A_B);
    try reflexivity; well_formed.
Defined.

Lemma name_after_achievements_witness :
  let s := Scripted.initially (Scripted.app_of (VInt 7)) in
  (SteamApp.name (H := Scripted.game_A_B)
     (SteamApp.achievements (H := Scripted.game_A_B) s).2).1 =
    Ok (SteamApp.Val (VStr "Portal")) ∧
  calls (SteamApp.name (H := Scripted.game_A_B)
           (SteamApp.achievements (H := Scripted.game_A_B) s).2).2 =
    calls (SteamApp.achievements (H := Scripted.game_A_B) s).2.
Proof.
  intros s.
  pose proof (name_after_achievements (H := Scripted.game_A_B) s Scripted.percentages_A_B
                Scripted.schema_A_B
                (list_to_map [("gameName", VStr "Portal");
                   ("availableGameStats",
                    Scripted.obj [("achievements", VList Scripted.definitions_A_B)])])
                Scripted.definitions_A_B Scripted.globals_A_B) as W.
  change (default (VStr "<Unknown>") (_ !! "gameName")) with (VStr "Portal") in W.
  apply W; try reflexivity; [readable_for_user_7|well_formed|well_formed].
Defined.

(** ** The store metadata of a known application *)

Section StoreDataFacts.
Context `{Collaborators}.

Lemma app_info_succeeded (s : state SteamApp.t) (data : value) :
  cache_entry (self s) "app_info" = None →
  store_succeeded s data →
  SteamApp.app_info s = (Ok (SteamApp.Val data), after_app_info_with data s).
Proof.
  intros Hmiss (response & entry & success & Hcall & Hentry & Hsuccess & Htrue & Hdata).
  unfold SteamApp.app_info. rewrite cached_property_miss by done.
  unfold mbind at 1, M_bind at 1, get_self. simpl.
  unfold mbind at 1, M_bind at 1, StoreAPIConnection_call_. simpl. rewrite Hcall. simpl.
  unfold mbind at 1, M_bind at 1, lift. simpl. rewrite Hentry.
  unfold mbind at 1, M_bind at 1. rewrite Hsuccess, Htrue.
  unfold mbind, M_bind. simpl. by rewrite Hdata.
Qed.

(** An accessor on an application whose store data is cached and true:
    two reads of the cache, and the field of the data. *)
Lemma app_info_field_cached (field : string) (s : state SteamApp.t) (info : value)
    (t : float) :
  cache_entry (self s) "app_info" = Some (SteamApp.Val info, t) →
  truthy info = true →
  SteamApp.app_info_field field s = (getattr info field, tick (tick s)).
Proof.
  intros Hhit Htrue. unfold SteamApp.app_info_field, SteamApp.app_info.
  unfold mbind at 1, M_bind at 1. rewrite (cached_property_hit _ _ _ _ _ Hhit).
  change (SteamApp.obj_truthy (SteamApp.Val info)) with (truthy info). rewrite Htrue.
  unfold mbind at 1, M_bind at 1.
  by rewrite (cached_property_hit _ _ (tick s) _ _ Hhit).
Qed.

(** When the store answers [success] true with data, an accessor returns the
    field of the data it is named after, having sent the one request; and
    once [app_info] is cached every accessor answers from it and sends
    nothing. *)
Theorem app_info_field_projects (s : state SteamApp.t) (data : value) (field : string)
    (v : value) :
  cache_entry (self s) "app_info" = None →
  store_succeeded s data →
  truthy data = true →
  getattr data field = Ok v →
  SteamApp.app_info_field field s = (Ok v, tick (after_app_info_with data s)) ∧
  calls (tick (after_app_info_with data s)) = (calls s ++ [app_info_request (self s)])%list ∧
  ∀ (s1 : state SteamApp.t) (t : float) (field' : string) (v' : value),
    cache_entry (self s1) "app_info" = Some (SteamApp.Val data, t) →
    getattr data field' = Ok v' →
    SteamApp.app_info_field field' s1 = (Ok v', tick (tick s1)) ∧
    calls (tick (tick s1)) = calls s1.
Proof.
  intros Hmiss Hstore Htrue Hfield. split; [|split; [done|]].
  - unfold SteamApp.app_info_field.
    unfold mbind at 1, M_bind at 1. rewrite (app_info_succeeded _ _ Hmiss Hstore).
    change (SteamApp.obj_truthy (SteamApp.Val data)) with (truthy data). rewrite Htrue.
    unfold mbind at 1, M_bind at 1. unfold SteamApp.app_info.
    rewrite (cached_property_hit _ _ (after_app_info_with data s) (SteamApp.Val data)
               (time_time (clock_reads s))).
    + unfold lift.
      change (SteamApp.obj_getattr (SteamApp.Val data) field) with (getattr data field).
      by rewrite Hfield.
    + apply cache_entry_with_entry.
  - intros s1 t field' v' Hhit Hfield'. split; [|done].
    by rewrite (app_info_field_cached _ _ _ _ Hhit Htrue), Hfield'.
Qed.

End StoreDataFacts.

(** Application 100, a game of the store: its [type]. *)
Lemma app_info_field_projects_witness :
  let s := Scripted.initially (Scripted.app_of VNone) in
  let data := Scripted.obj [("type", VStr "game"); ("required_age", VInt 0);
                            ("developers", VList [VStr "Valve"])] in
  SteamApp.type (H := Scripted.game_in_store) s =
    (Ok (VStr "game"), tick (after_app_info_with (H := Scripted.game_in_store) data s)) ∧
  SteamApp.developers (H := Scripted.game_in_store)
    (tick (after_app_info_with (H := Scripted.game_in_store) data s)) =
    (Ok (VList [VStr "Valve"]),
     tick (tick (tick (after_app_info_with (H := Scripted.game_in_store) data s)))).
Proof.
  intros s data.
  destruct (app_info_field_projects (H := Scripted.game_in_store) s data "type" (VStr "game"))
    as (Htype & _ & Hlater).
  - reflexivity.
  - exists Scripted.appdetails_portal,
           (Scripted.obj [("success", VBool true); ("data", data)]), (VBool true).
    repeat split; reflexivity.
  - reflexivity.
  - reflexivity.
  - split; [exact Htype|].
    refine (proj1 (Hlater _ _ "developers" (VList [VStr "Valve"]) _ _)); reflexivity.
Defined.
